(** * Hacker News summarizer: the ingestion stage and the summarization loop

    A shallow embedding of [src/components/hn_fetcher.py]
    ([HackerNewsNewestFetcher]) and of [src/pipeline.py]
    ([DocumentLoopProcessor]), followed by the properties the specification
    states about them.

    The network, the extraction heuristic, the prompt renderer and the
    text-generation service are oracles collected in a record: every
    theorem quantifies over them.  Verbose tracing ([print] under
    [self.verbose]) has no effect on any returned value and is left out. *)

From Stdlib Require Import ZArith String Ascii List Lia DecimalString.
From Stdlib Require Import Floats.PrimFloat.
From stdpp Require Import base option list gmap strings.

Set Warnings "-register-all".
Local Open Scope Z_scope.
Local Open Scope string_scope.

(** ** Python values and control flow *)

Module Py.

(** The exception classes the handlers of the source tell apart:
    [aiohttp.ClientError], [asyncio.TimeoutError], and every other subclass
    of [Exception] ([TypeError], [AttributeError], [ValueError], a JSON
    decoding error, ...).  Signals that derive from [BaseException] only
    (keyboard interrupt, task cancellation) are outside the model. *)
Inductive exn : Type :=
  | ClientError
  | TimeoutError
  | OtherException.

(** The result of evaluating a Python expression or block. *)
Inductive outcome (A : Type) : Type :=
  | Returns (a : A)
  | Raises (e : exn).
Arguments Returns {A} a.
Arguments Raises {A} e.

#[export] Instance outcome_ret : MRet outcome := fun _ a => Returns a.
#[export] Instance outcome_bind : MBind outcome := fun _ _ k m =>
  match m with
  | Returns a => k a
  | Raises e => Raises e
  end.
#[export] Instance outcome_fmap : FMap outcome := fun _ _ f m =>
  match m with
  | Returns a => Returns (f a)
  | Raises e => Raises e
  end.

(** What [response.json()] hands back: [None], [bool], [int], [float],
    [str], [list] and [dict] with [str] keys.  Python's [None] and JSON's
    [null] are the same value. *)
Inductive json : Type :=
  | JNull
  | JBool (b : bool)
  | JInt (n : Z)
  | JFloat (f : float)
  | JStr (s : string)
  | JArr (l : list json)
  | JObj (d : gmap string json).

(** [bool(v)], the test behind [not v]. *)
Definition truthy (v : json) : bool :=
  match v with
  | JNull => false
  | JBool b => b
  | JInt n => negb (Z.eqb n 0)
  | JFloat f => negb (PrimFloat.eqb f 0%float)
  | JStr s => negb (String.eqb s "")
  | JArr l => negb (Nat.eqb (length l) 0)
  | JObj d => negb (Nat.eqb (size d) 0)
  end.

(** [v == s] for a [str] literal [s]: only an equal [str] compares equal. *)
Definition eq_str (v : json) (s : string) : bool :=
  match v with
  | JStr s' => String.eqb s' s
  | _ => false
  end.

(** [d.get(key)] and [d.get(key, default)]. *)
Definition dict_get (d : gmap string json) (key : string) : json :=
  default JNull (d !! key).
Definition dict_get_default (d : gmap string json) (key : string) (dflt : json) : json :=
  default dflt (d !! key).

(** The stop index of [s[:k]] on a sequence of length [len]: a negative [k]
    counts from the end, and the result is clamped to [0 .. len] (the upper
    clamp is the one of [take]). *)
Definition slice_stop (len : nat) (k : Z) : nat :=
  if Z.ltb k 0 then Z.to_nat (Z.of_nat len + k) else Z.to_nat k.

Definition slice_to {A : Type} (l : list A) (k : Z) : list A :=
  take (slice_stop (length l) k) l.

(** The characters of a [str].  A [string] holds the UTF-8 bytes of the
    text, and a character of a Python [str] is a code point: a byte that is
    no continuation byte (0b10xxxxxx), with the continuation bytes that
    follow it.  [utf8_split s] gives the continuation bytes [s] starts with
    and the characters after them. *)
Definition is_continuation (c : ascii) : bool :=
  (128 <=? nat_of_ascii c)%nat && (nat_of_ascii c <? 192)%nat.

Fixpoint utf8_split (s : string) : string * list string :=
  match s with
  | EmptyString => (EmptyString, [])
  | String c s' =>
      let '(pending, chars) := utf8_split s' in
      if is_continuation c then (String c pending, chars)
      else (EmptyString, String c pending :: chars)
  end.

Definition utf8_chars (s : string) : list string :=
  let '(pending, chars) := utf8_split s in
  match pending with
  | EmptyString => chars
  | _ => pending :: chars
  end.

(** The items that [for x in v[:k]] goes through: the first elements of a
    list, or the first characters of a string, each a string of one
    character.  Every other JSON value cannot be sliced: [v[:k]] raises
    ([TypeError], or [KeyError] for a [dict]). *)
Definition sliced_items (v : json) (k : Z) : outcome (list json) :=
  match v with
  | JArr l => Returns (slice_to l k)
  | JStr s => Returns (JStr <$> slice_to (utf8_chars s) k)
  | _ => Raises OtherException
  end.

End Py.
Export Py.

(** ** [datetime.fromtimestamp(t, tz=timezone.utc).isoformat()]

    The standard library's conversion of epoch seconds to a calendar date
    and time of day in UTC, and its ISO 8601 rendering.  The calendar is the
    proleptic Gregorian one; days are counted from 1970-01-01. *)

Module datetime.

Record datetime : Type := mk_datetime {
  year : Z; month : Z; day : Z;
  hour : Z; minute : Z; second : Z
}.

Definition MINYEAR : Z := 1.
Definition MAXYEAR : Z := 9999.

(** The civil date of a day number.  Years are shifted to start on March 1,
    so that the leap day is the last day of the shifted year; an era is 400
    years, that is 146097 days. *)
Definition civil_from_days (days : Z) : Z * Z * Z :=
  let z := days + 719468 in
  let era := z / 146097 in
  let doe := z - era * 146097 in
  let yoe := (doe - doe / 1460 + doe / 36524 - doe / 146096) / 365 in
  let doy := doe - (365 * yoe + yoe / 4 - yoe / 100) in
  let mp := (5 * doy + 2) / 153 in
  let d := doy - (153 * mp + 2) / 5 + 1 in
  let m := if Z.ltb mp 10 then mp + 3 else mp - 9 in
  let y := yoe + era * 400 in
  (if Z.leb m 2 then y + 1 else y, m, d).

(** The inverse direction, used to state what [civil_from_days] computes. *)
Definition days_from_civil (y m d : Z) : Z :=
  let y' := if Z.leb m 2 then y - 1 else y in
  let era := y' / 400 in
  let yoe := y' - era * 400 in
  let doy := (153 * (if Z.ltb 2 m then m - 3 else m + 9) + 2) / 5 + d - 1 in
  let doe := yoe * 365 + yoe / 4 - yoe / 100 + doy in
  era * 146097 + doe - 719468.

Definition is_leap (y : Z) : bool :=
  Z.eqb (y mod 4) 0 && (negb (Z.eqb (y mod 100) 0) || Z.eqb (y mod 400) 0).

Definition days_in_month (y m : Z) : Z :=
  if Z.eqb m 2 then (if is_leap y then 29 else 28)
  else if Z.eqb m 4 || Z.eqb m 6 || Z.eqb m 9 || Z.eqb m 11 then 30
  else 31.

(** Seconds since the epoch of a UTC date and time ([calendar.timegm]). *)
Definition timegm (dt : datetime) : Z :=
  days_from_civil (year dt) (month dt) (day dt) * 86400
  + hour dt * 3600 + minute dt * 60 + second dt.

(** [datetime.fromtimestamp(t, tz=timezone.utc)] for an [int] [t].  A year
    outside [MINYEAR .. MAXYEAR] raises ([ValueError] or [OverflowError]). *)
Definition fromtimestamp_utc (t : Z) : outcome datetime :=
  let days := t / 86400 in
  let secs := t mod 86400 in
  let '(y, m, d) := civil_from_days days in
  if Z.ltb y MINYEAR || Z.ltb MAXYEAR y then Raises OtherException
  else Returns {| year := y; month := m; day := d;
                  hour := secs / 3600;
                  minute := secs mod 3600 / 60;
                  second := secs mod 60 |}.

Definition digit (n : Z) : ascii := ascii_of_nat (48 + Z.to_nat (n mod 10)).

(** ["%02d"] and ["%04d"] for a number within their width. *)
Definition fmt02 (n : Z) : string :=
  String (digit (n / 10)) (String (digit n) "").
Definition fmt04 (n : Z) : string :=
  String (digit (n / 1000)) (String (digit (n / 100))
    (String (digit (n / 10)) (String (digit n) ""))).

(** [dt.isoformat()] of an aware datetime in UTC whose microsecond is 0. *)
Definition isoformat (dt : datetime) : string :=
  fmt04 (year dt) ++ "-" ++ fmt02 (month dt) ++ "-" ++ fmt02 (day dt) ++ "T"
  ++ fmt02 (hour dt) ++ ":" ++ fmt02 (minute dt) ++ ":" ++ fmt02 (second dt)
  ++ "+00:00".

(** The fields denote a date of the calendar and a time of day. *)
Definition valid_datetime (dt : datetime) : Prop :=
  MINYEAR <= year dt <= MAXYEAR
  /\ 1 <= month dt <= 12
  /\ 1 <= day dt <= days_in_month (year dt) (month dt)
  /\ 0 <= hour dt < 24 /\ 0 <= minute dt < 60 /\ 0 <= second dt < 60.

End datetime.

Export datetime.

(** ** [asyncio.gather]

    [asyncio.gather], awaited on the tasks of a list, runs them concurrently.  The model
    takes the outcome of every task and a completion order, a list of task
    positions: a task that returns stores its value in the slot of its own
    position, and the first task to complete by raising makes [gather] raise
    that exception at once.  When every slot is filled the values are
    returned in the order of the tasks.  A completion order that leaves a
    task out describes a [gather] that is still waiting: [None]. *)

Module asyncio.

Fixpoint gather_loop {A : Type} (tasks : list (outcome A)) (completion : list nat)
    (slots : list (option A)) : outcome (list (option A)) :=
  match completion with
  | [] => Returns slots
  | i :: completion' =>
      match tasks !! i with
      | Some (Returns a) => gather_loop tasks completion' (<[i := Some a]> slots)
      | Some (Raises e) => Raises e
      | None => gather_loop tasks completion' slots
      end
  end.

Definition gather {A : Type} (tasks : list (outcome A)) (completion : list nat)
    : option (outcome (list A)) :=
  match gather_loop tasks completion (replicate (length tasks) None) with
  | Returns slots => Returns <$> mapM id slots
  | Raises e => Some (Raises e)
  end.

(** A completion order is complete when every task finishes exactly once. *)
Definition complete {A : Type} (tasks : list (outcome A)) (completion : list nat) : Prop :=
  completion ≡ₚ seq 0 (length tasks).

(** A slot only ever holds the value its own task returned. *)
Definition slots_sound {A : Type} (tasks : list (outcome A)) (slots : list (option A)) : Prop :=
  ∀ (j : nat) (a : A), slots !! j = Some (Some a) → tasks !! j = Some (Returns a).

End asyncio.

(** ** [components/hn_fetcher.py]: [HackerNewsNewestFetcher] *)

Module HackerNewsNewestFetcher.

(** haystack's [Document], with the two fields the fetcher sets. *)
Record Document : Type := mk_Document {
  content : string;
  meta : gmap string json
}.

(** What the outside answers.  Each field is the outcome of one block of the
    source that talks to the network or to a library:
    - [get_newstories]: [session.get(".../newstories.json", timeout=5)],
      [raise_for_status()] and [response.json()] (lines 170-172);
    - [get_item story_id]: the same for [".../item/{story_id}.json"]
      (lines 101-103);
    - [get_text url]: [session.get(url, timeout=10)], [raise_for_status()]
      and [response.text()] (lines 50-52);
    - [trafilatura_extract html]: [trafilatura.extract(html, ...)], which
      returns a [str] or [None];
    - [fromtimestamp_float f]: [datetime.fromtimestamp(f, tz=utc).isoformat()]
      for a [float] argument. *)
Record world : Type := mk_world {
  get_newstories : outcome json;
  get_item : json -> outcome json;
  get_text : json -> outcome string;
  trafilatura_extract : string -> outcome (option string);
  fromtimestamp_float : float -> outcome string
}.

Section fetcher.
Variable w : world.

(** Lines 41-64.  The three handlers all return [None]. *)
Definition _fetch_url (url : json) : option string :=
  match get_text w url with
  | Returns text => Some text
  | Raises ClientError => None
  | Raises TimeoutError => None
  | Raises OtherException => None
  end.

(** Lines 66-89. *)
Definition _extract_article_text (url : json) : option string :=
  match _fetch_url url with
  | None => None
  | Some html_content =>
      if String.eqb html_content "" then None
      else
        match trafilatura_extract w html_content with
        | Returns None => None
        | Returns (Some extracted_text) =>
            if String.eqb extracted_text "" then None else Some extracted_text
        | Raises _ => None
        end
  end.

(** Lines 91-115.  The result is the parsed body, or [None] ([JNull]) from a
    handler. *)
Definition _fetch_story_details (story_id : json) : json :=
  match get_item w story_id with
  | Returns details => details
  | Raises ClientError => JNull
  | Raises TimeoutError => JNull
  | Raises OtherException => JNull
  end.

(** Line 138, the branch taken when ["time" in details]:
    [datetime.fromtimestamp(details["time"], tz=timezone.utc).isoformat()].
    A [bool] is an [int]; [None], a [str], a [list] or a [dict] is a
    [TypeError]. *)
Definition time_isoformat (time : json) : outcome string :=
  match time with
  | JInt t => isoformat <$> fromtimestamp_utc t
  | JBool b => isoformat <$> fromtimestamp_utc (Z.b2z b)
  | JFloat f => fromtimestamp_float w f
  | _ => Raises OtherException
  end.

(** Lines 117-157.  [details.get] on a value that is true but not a [dict]
    raises [AttributeError]. *)
Definition _process_story (story_id : json) : outcome (option Document) :=
  let details := _fetch_story_details story_id in
  if negb (truthy details) then Returns None
  else
    match details with
    | JObj d =>
        if negb (eq_str (dict_get d "type") "story") then Returns None
        else
          match d !! "url" with
          | None => Returns None
          | Some url =>
              if negb (truthy url) then Returns None
              else
                time_iso ← match d !! "time" with
                           | Some time => JStr <$> time_isoformat time
                           | None => Returns JNull
                           end;
                match _extract_article_text url with
                | None => Returns None
                | Some article_text =>
                    if String.eqb article_text "" then Returns None
                    else
                      let metadata : gmap string json :=
                        {[ "title" := dict_get d "title";
                           "url" := url;
                           "score" := dict_get_default d "score" (JInt 0);
                           "descendants" := dict_get_default d "descendants" (JInt 0);
                           "by" := dict_get d "by";
                           "time_iso" := time_iso;
                           "id" := story_id ]} in
                      Returns (Some {| content := article_text; meta := metadata |})
                end
          end
    | _ => Raises OtherException
    end.

(** Names for two parts of [_process_story]: the value bound to [time_iso]
    on line 138, and the dict of lines 148-156. *)
Definition time_iso_of (d : gmap string json) : outcome json :=
  match d !! "time" with
  | Some time => JStr <$> time_isoformat time
  | None => Returns JNull
  end.

Definition metadata_of (d : gmap string json) (url time_iso story_id : json)
    : gmap string json :=
  {[ "title" := dict_get d "title";
     "url" := url;
     "score" := dict_get_default d "score" (JInt 0);
     "descendants" := dict_get_default d "descendants" (JInt 0);
     "by" := dict_get d "by";
     "time_iso" := time_iso;
     "id" := story_id ]}.

(** The Document, if any, that the unit of work for [story_id] ends with. *)
Definition document_of (story_id : json) : option Document :=
  match _process_story story_id with
  | Returns (Some doc) => Some doc
  | _ => None
  end.

(** The dict [{"documents": ...}] that [_run_async] returns. *)
Record output : Type := mk_output { documents : list Document }.

(** What a run did: the story IDs for which a [_process_story] task was
    created (line 188), and how the run ended ([None]: still waiting in
    [gather]). *)
Record run_result : Type := mk_run_result {
  launched : list json;
  ended : option (outcome output)
}.

(** Lines 159-199.  [completion] is the order in which the tasks of line 188
    complete. *)
Definition _run_async (last_k : Z) (completion : list nat) : run_result :=
  match get_newstories w with
  | Raises ClientError => {| launched := []; ended := Some (Returns {| documents := [] |}) |}
  | Raises TimeoutError => {| launched := []; ended := Some (Returns {| documents := [] |}) |}
  | Raises OtherException => {| launched := []; ended := Some (Returns {| documents := [] |}) |}
  | Returns top_story_ids =>
      match sliced_items top_story_ids last_k with
      | Raises e => {| launched := []; ended := Some (Raises e) |}
      | Returns story_ids_to_process =>
          let tasks := _process_story <$> story_ids_to_process in
          {| launched := story_ids_to_process;
             ended :=
               match asyncio.gather tasks completion with
               | None => None
               | Some (Raises e) => Some (Raises e)
               | Some (Returns processed_documents) =>
                   Some (Returns {| documents := omap id processed_documents |})
               end |}
      end
  end.

(** Lines 201-209: [asyncio.run(self._run_async(last_k))]. *)
Definition run (last_k : Z) (completion : list nat) : run_result :=
  _run_async last_k completion.

End fetcher.

End HackerNewsNewestFetcher.

(** ** [pipeline.py]: [DocumentLoopProcessor] *)

Module DocumentLoopProcessor.
Import HackerNewsNewestFetcher.

(** The fields set by [__init__]. *)
Record config : Type := mk_config {
  api_key : string;
  model_name : string;
  temperature : float;
  verbose : bool
}.

(** The dict that [OpenAIGenerator.run] returns; only ["replies"] is read,
    and [response.get("replies")] allows for its absence. *)
Record response : Type := mk_response {
  replies : option (list string)
}.

(** The collaborators of the loop:
    - [read_template]: opening and reading [prompts/hn_summary.j2]
      (lines 28-30);
    - [render_prompt template doc]: building the [PromptBuilder] and running
      it on [doc] (lines 36-37);
    - [generate i cfg prompt]: building the [OpenAIGenerator] from the
      configuration and running it on [prompt] in iteration [i] of the loop
      (lines 40-45).  The iteration number stands for everything the service
      may depend on beyond the prompt. *)
Record world : Type := mk_world {
  read_template : outcome string;
  render_prompt : string -> Document -> outcome string;
  generate : nat -> config -> string -> outcome response
}.

(** The values stored in a result dict. *)
Inductive value : Type :=
  | VDocument (doc : Document)
  | VStr (s : string).

Section processor.
Variable self : config.
Variable w : world.

(** Line 46. *)
Definition summary_of (r : response) : string :=
  match replies r with
  | Some (reply :: _) => reply
  | Some [] => "Unable to generate summary"
  | None => "Unable to generate summary"
  end.

(** Lines 35-45, the generation call for [doc]: the prompt is rendered and
    handed to the generator. *)
Definition generation (template : string) (i : nat) (doc : Document) : outcome response :=
  prompt ← render_prompt w template doc;
  generate w i self prompt.

(** Lines 35-46, the body of the [try]. *)
Definition try_body (template : string) (i : nat) (doc : Document) : outcome string :=
  r ← generation template i doc;
  mret (summary_of r).

(** Lines 34-58, one iteration: the dict appended to [results]. *)
Definition iteration (template : string) (i : nat) (doc : Document) : gmap string value :=
  match try_body template i doc with
  | Returns summary =>
      {[ "document" := VDocument doc; "summary" := VStr summary ]}
  | Raises _ =>
      {[ "document" := VDocument doc; "summary" := VStr "Error generating summary" ]}
  end.

(** Lines 33-58, the [for] loop from iteration [i] on, [results] being the
    list built so far. *)
Fixpoint loop (template : string) (i : nat) (documents : list Document)
    (results : list (gmap string value)) : list (gmap string value) :=
  match documents with
  | [] => results
  | doc :: documents' =>
      loop template (S i) documents' (results ++ [iteration template i doc])
  end.

(** Lines 23-60; the value is the list under ["results"]. *)
Definition run (documents : list Document) : outcome (list (gmap string value)) :=
  template ← read_template w;
  mret (loop template 0 documents []).

(** Generation for [doc] failed: the call raised, or returned no reply. *)
Definition generation_failed (template : string) (i : nat) (doc : Document) : bool :=
  match generation template i doc with
  | Returns r =>
      match replies r with
      | Some (_ :: _) => false
      | _ => true
      end
  | Raises _ => true
  end.

End processor.

(** The two sentinel summaries. *)
Definition sentinel (summary : string) : Prop :=
  summary = "Unable to generate summary" \/ summary = "Error generating summary".

(** A result read as the specification's SummaryResult: a record with the
    fields [document], [summary] and [failed]. *)
Definition is_SummaryResult (r : gmap string value) : Prop :=
  is_Some (r !! "document") /\ is_Some (r !! "summary") /\ is_Some (r !! "failed").

End DocumentLoopProcessor.

(** ** [pipeline.py]: [create_hn_summarizer_pipeline], and running the pipeline *)

Module Pipeline.
Import HackerNewsNewestFetcher.

(** The pipeline of lines 72-88: the component ["hn_fetcher"], built with
    [verbose], the component ["document_processor"], built with the four
    settings, and the connection of [hn_fetcher.documents] to
    [document_processor.documents]. *)
Record Pipeline : Type := mk_Pipeline {
  hn_fetcher : bool;
  document_processor : DocumentLoopProcessor.config
}.

Definition create_hn_summarizer_pipeline (api_key model_name : string)
    (temperature : float) (verbose : bool) : Pipeline :=
  {| hn_fetcher := verbose;
     document_processor :=
       {| DocumentLoopProcessor.api_key := api_key;
          DocumentLoopProcessor.model_name := model_name;
          DocumentLoopProcessor.temperature := temperature;
          DocumentLoopProcessor.verbose := verbose |} |}.

(** What the two components face during one run, and the order in which the
    fetcher's tasks complete. *)
Record world : Type := mk_world {
  fetcher_world : HackerNewsNewestFetcher.world;
  completion : list nat;
  processor_world : DocumentLoopProcessor.world
}.

(** haystack's [pipeline.run(data={"hn_fetcher": {"last_k": last_k}})] on
    this pipeline: the fetcher runs on [last_k], its [documents] are handed
    to the processor, and the outputs that no component consumes are
    returned under the name of their component.  An exception of a component
    ends the run ([None]: the fetcher is still waiting). *)
Definition run (pipeline : Pipeline) (w : world) (last_k : Z)
    : option (outcome (gmap string (gmap string (list (gmap string DocumentLoopProcessor.value))))) :=
  match ended (HackerNewsNewestFetcher.run (fetcher_world w) last_k (completion w)) with
  | None => None
  | Some (Raises e) => Some (Raises e)
  | Some (Returns fetched) =>
      match DocumentLoopProcessor.run (document_processor pipeline) (processor_world w)
              (documents fetched) with
      | Raises e => Some (Raises e)
      | Returns results =>
          Some (Returns {[ "document_processor" := {[ "results" := results ]} ]})
      end
  end.

End Pipeline.

(** ** [main.py] *)

Module Main.
Import HackerNewsNewestFetcher DocumentLoopProcessor.

(** One call of [click.echo]: the message, the attributes given to
    [click.style] (none for a plain message), and whether it goes to the
    standard error stream. *)
Record echo : Type := mk_echo {
  message : string;
  fg : option string;
  bold : bool;
  underline : bool;
  err : bool
}.

Definition plain (message : string) : echo :=
  {| message := message; fg := None; bold := false; underline := false; err := false |}.
Definition styled (message fg : string) (bold underline : bool) : echo :=
  {| message := message; fg := Some fg; bold := bold; underline := underline; err := false |}.
Definition error (message : string) : echo :=
  {| message := message; fg := Some "red"; bold := false; underline := false; err := true |}.

(** How the command ends: it returns, [click.Abort] is raised, another
    exception escapes, or click rejects an option before [main] is entered. *)
Inductive exit : Type :=
  | Completed
  | Aborted
  | Uncaught (e : exn)
  | UsageError.

(** One dict of [summaries] (lines 103-111); its keys are those of the
    literal, [by] being spelled [by_]. *)
Record summary_item : Type := mk_summary_item {
  title : json;
  url : json;
  score : json;
  comments : json;
  summary : value;
  time_iso : json;
  by_ : json
}.

(** What [main] faces: the environment variable, the world of the pipeline,
    and what Python's formatting yields where the model has no text of its
    own: [str] of a float, of a list, dict or float inside the metadata, of a
    Document, and of an exception, and the two-decimal rendering of the
    measured duration. *)
Record world : Type := mk_world {
  OPENAI_API_KEY : option string;
  pipeline_world : Pipeline.world;
  str_float : float -> string;
  str_json_other : json -> string;
  str_Document : Document -> string;
  str_exception : exn -> string;
  duration : string
}.

(** [str(n)] for an [int]. *)
Definition str_int (n : Z) : string := NilZero.string_of_int (Z.to_int n).

(** [s * n] for a [str]. *)
Fixpoint str_mul (s : string) (n : nat) : string :=
  match n with
  | O => ""
  | S n' => s +:+ str_mul s n'
  end.

Section main.
Variable w : world.

(** What an f-string puts for a value of the metadata, and for a summary. *)
Definition str_json (v : json) : string :=
  match v with
  | JNull => "None"
  | JBool true => "True"
  | JBool false => "False"
  | JInt n => str_int n
  | JStr s => s
  | _ => str_json_other w v
  end.

Definition str_value (v : value) : string :=
  match v with
  | VStr s => s
  | VDocument doc => str_Document w doc
  end.

(** Lines 91-112, the body of the loop over the results: [document.meta] on
    [None] or on a [str] is an [AttributeError]. *)
Definition summary_of_item (item : gmap string value) : outcome summary_item :=
  match item !! "document" with
  | Some (VDocument document) =>
      Returns {| title := dict_get_default (meta document) "title" (JStr "N/A");
                 url := dict_get_default (meta document) "url" (JStr "N/A");
                 score := dict_get_default (meta document) "score" (JInt 0);
                 comments := dict_get_default (meta document) "descendants" (JInt 0);
                 summary := default (VStr "N/A") (item !! "summary");
                 time_iso := dict_get_default (meta document) "time_iso" (JStr "N/A");
                 by_ := dict_get_default (meta document) "by" (JStr "N/A") |}
  | _ => Raises OtherException
  end.

(** Lines 90-112, the loop, [summaries] being the list built so far. *)
Fixpoint collect (items : list (gmap string value)) (summaries : list summary_item)
    : outcome (list summary_item) :=
  match items with
  | [] => Returns summaries
  | item :: items' =>
      s ← summary_of_item item;
      collect items' (summaries ++ [s])
  end.

(** Lines 87-112. *)
Definition summaries_of (result : gmap string (gmap string (list (gmap string value))))
    : outcome (list summary_item) :=
  match result !! "document_processor" with
  | Some outputs =>
      match outputs !! "results" with
      | Some results => collect results []
      | None => Returns []
      end
  | None => Returns []
  end.

(** Lines 129-139, the four lines of the story numbered [i]. *)
Definition story_lines (i : nat) (item : summary_item) : list echo :=
  [ styled (str_int (Z.of_nat i) +:+ ". " +:+ str_json (title item)) "bright_green" true false;
    styled ("   (" +:+ str_json (score item) +:+ " points, "
            +:+ str_json (comments item) +:+ " comments)") "bright_yellow" false false;
    plain ("   " +:+ str_value (summary item));
    styled ("   " +:+ str_json (url item)) "bright_blue" false true ].

(** Lines 142-145, 124-126 and 147-148. *)
Definition separator : list echo :=
  [ plain ""; styled (str_mul "─" 70) "bright_black" false false; plain "" ].
Definition heading : list echo :=
  [ plain ""; styled "━━━ Hacker News Summaries ━━━" "cyan" true false; plain "" ].
Definition footing : list echo :=
  [ plain ""; styled "━━━━━━━━━━━━━━━━━━━━━━━━━━━━" "cyan" true false ].

(** Line 150. *)
Definition no_summaries : echo :=
  styled "No summaries generated. Try increasing --last-k or check verbose output for skipped articles."
    "yellow" false false.

(** Lines 128-145, one turn of the loop over [enumerate(summaries, 1)], [n]
    being [len(summaries)]. *)
Definition print_item (n i : nat) (item : summary_item) : list echo :=
  (story_lines i item ++ (if Nat.ltb i n then separator else []))%list.

Fixpoint print_items (n i : nat) (items : list summary_item) : list echo :=
  match items with
  | [] => []
  | item :: items' => (print_item n i item ++ print_items n (S i) items')%list
  end.

(** Lines 122-150, the output that is not JSON. *)
Definition pretty (summaries : list summary_item) : list echo :=
  match summaries with
  | [] => [ no_summaries ]
  | _ :: _ => (heading ++ print_items (length summaries) 1 summaries ++ footing)%list
  end.

(** The messages of verbose mode: lines 53-55, lines 76-77 and lines
    117-118. *)
Definition started (last_k : Z) (model : string) (temperature : float)
    (verbose : bool) : list echo :=
  if verbose
  then [ plain "🚀 Starting Hacker News Summarizer (verbose mode enabled)";
         plain ("Parameters: last_k=" +:+ str_int last_k +:+ ", model='" +:+ model
                +:+ "', temperature=" +:+ str_float w temperature) ]
  else [].

Definition fetching (verbose : bool) : list echo :=
  if verbose then [ plain "Fetching and processing Hacker News stories..." ] else [].

Definition timed (verbose : bool) : list echo :=
  if verbose
  then [ plain ("Total execution time: " +:+ duration w +:+ " seconds") ]
  else [].

(** The two messages that precede [click.Abort] (lines 59-66, 81-84). *)
Definition key_not_set : echo :=
  error "Error: OPENAI_API_KEY environment variable not set. Please create a .env file or set the variable.".

Definition pipeline_failed (e : exn) : echo :=
  error ("An error occurred during pipeline execution: " +:+ str_exception w e).

(** Lines 48-150.  The result is the list of the calls of [click.echo] that
    [main] makes, in order, and the way it ends.  On line 121 the name [json]
    is the parameter of [main], a [bool], not the module imported on line 4:
    [json.dumps] raises [AttributeError] before anything is echoed. *)
Definition main (last_k : Z) (model : string) (temperature : float)
    (verbose json : bool) : option (list echo * exit) :=
  match OPENAI_API_KEY w with
  | None | Some "" =>
      Some ((started last_k model temperature verbose ++ [ key_not_set ])%list, Aborted)
  | Some openai_api_key =>
      let pipeline :=
        Pipeline.create_hn_summarizer_pipeline openai_api_key model temperature verbose in
      match Pipeline.run pipeline (pipeline_world w) last_k with
      | None => None
      | Some (Raises e) =>
          Some ((started last_k model temperature verbose ++ fetching verbose
                 ++ [ pipeline_failed e ])%list,
                Aborted)
      | Some (Returns result) =>
          match summaries_of result with
          | Raises e =>
              Some ((started last_k model temperature verbose ++ fetching verbose)%list,
                    Uncaught e)
          | Returns summaries =>
              if json
              then Some ((started last_k model temperature verbose ++ fetching verbose
                          ++ timed verbose)%list,
                         Uncaught OtherException)
              else Some ((started last_k model temperature verbose ++ fetching verbose
                          ++ timed verbose ++ pretty summaries)%list,
                         Completed)
          end
      end
  end.


End main.

End Main.

(** ** Concrete runs

    The scenarios of the specification's section 8, used below to exercise
    the theorems. *)

Module Scenarios.
Import HackerNewsNewestFetcher.

Definition item_101 : gmap string json :=
  {[ "id" := JInt 101; "type" := JStr "story"; "title" := JStr "Story A";
     "url" := JStr "https://a.example"; "by" := JStr "alice";
     "time" := JInt 1700000000 ]}.

Definition item_102 : gmap string json :=
  {[ "id" := JInt 102; "type" := JStr "story"; "title" := JStr "Ask HN";
     "by" := JStr "bob"; "time" := JInt 1700000100 ]}.

Definition item_103 : gmap string json :=
  {[ "id" := JInt 103; "type" := JStr "story"; "title" := JStr "Story B";
     "url" := JStr "https://b.example"; "score" := JInt 7;
     "descendants" := JInt 2; "by" := JStr "carol" ]}.

Definition item_104 : gmap string json :=
  {[ "id" := JInt 104; "type" := JStr "job"; "title" := JStr "Hiring";
     "url" := JStr "https://a.example"; "time" := JInt 1700000200 ]}.

Definition items (story_id : json) : outcome json :=
  match story_id with
  | JInt 101 => Returns (JObj item_101)
  | JInt 102 => Returns (JObj item_102)
  | JInt 103 => Returns (JObj item_103)
  | JInt 104 => Returns (JObj item_104)
  | _ => Raises ClientError
  end.

Definition extract (html : string) : outcome (option string) :=
  if String.eqb html "<html>A</html>" then Returns (Some "Text A")
  else if String.eqb html "<html>B</html>" then Returns (Some "Text B")
  else Returns None.

(** Scenario A: 102 has no url, the page of 103 times out. *)
Definition scenario_A : world :=
  {| get_newstories := Returns (JArr [JInt 101; JInt 102; JInt 103]);
     get_item := items;
     get_text := fun url =>
       if eq_str url "https://a.example" then Returns "<html>A</html>"
       else if eq_str url "https://b.example" then Raises TimeoutError
       else Raises ClientError;
     trafilatura_extract := extract;
     fromtimestamp_float := fun _ => Raises OtherException |}.

(** The same feed with both pages reachable, and two more entries than any
    run below asks for. *)
Definition both_pages : world :=
  {| get_newstories := Returns (JArr [JInt 101; JInt 102; JInt 103; JInt 104; JInt 105]);
     get_item := items;
     get_text := fun url =>
       if eq_str url "https://a.example" then Returns "<html>A</html>"
       else if eq_str url "https://b.example" then Returns "<html>B</html>"
       else Raises ClientError;
     trafilatura_extract := extract;
     fromtimestamp_float := fun _ => Raises OtherException |}.

(** The index endpoint answers with the JSON value [null]. *)
Definition index_null : world :=
  {| get_newstories := Returns JNull;
     get_item := items;
     get_text := fun _ => Returns "<html>A</html>";
     trafilatura_extract := extract;
     fromtimestamp_float := fun _ => Raises OtherException |}.

(** The index endpoint answers with the JSON string ["12é"]: three
    characters, the last one of two bytes.  No item is reachable. *)
Definition index_string : world :=
  {| get_newstories := Returns (JStr "12é");
     get_item := fun _ => Raises ClientError;
     get_text := fun _ => Returns "<html>A</html>";
     trafilatura_extract := extract;
     fromtimestamp_float := fun _ => Raises OtherException |}.

(** Scenario B: the index endpoint fails with a transport error. *)
Definition scenario_B : world :=
  {| get_newstories := Raises ClientError;
     get_item := items;
     get_text := fun _ => Returns "<html>A</html>";
     trafilatura_extract := extract;
     fromtimestamp_float := fun _ => Raises OtherException |}.

(** The Documents of 101 and 103. *)
Definition doc_1 : Document :=
  {| content := "Text A";
     meta := {[ "title" := JStr "Story A"; "url" := JStr "https://a.example";
                "score" := JInt 0; "descendants" := JInt 0; "by" := JStr "alice";
                "time_iso" := JStr "2023-11-14T22:13:20+00:00"; "id" := JInt 101 ]} |}.
Definition doc_2 : Document :=
  {| content := "Text B";
     meta := {[ "title" := JStr "Story B"; "url" := JStr "https://b.example";
                "score" := JInt 7; "descendants" := JInt 2; "by" := JStr "carol";
                "time_iso" := JNull; "id" := JInt 103 ]} |}.

Definition settings : DocumentLoopProcessor.config :=
  {| DocumentLoopProcessor.api_key := "key";
     DocumentLoopProcessor.model_name := "model";
     DocumentLoopProcessor.temperature := 0.5%float;
     DocumentLoopProcessor.verbose := false |}.

(** Scenario D: the generation call for the first Document raises a
    transport error, the call for the second returns the reply ["S2"]. *)
Definition scenario_D : DocumentLoopProcessor.world :=
  {| DocumentLoopProcessor.read_template := Returns "Summarize: ";
     DocumentLoopProcessor.render_prompt := fun template doc =>
       Returns (template ++ content doc);
     DocumentLoopProcessor.generate := fun i _ _ =>
       match i with
       | O => Raises ClientError
       | _ => Returns {| DocumentLoopProcessor.replies := Some ["S2"] |}
       end |}.

(** The same service when the first call succeeds too. *)
Definition all_replies : DocumentLoopProcessor.world :=
  {| DocumentLoopProcessor.read_template := Returns "Summarize: ";
     DocumentLoopProcessor.render_prompt := fun template doc =>
       Returns (template ++ content doc);
     DocumentLoopProcessor.generate := fun i _ _ =>
       match i with
       | O => Returns {| DocumentLoopProcessor.replies := Some ["S1"; "S1 bis"] |}
       | _ => Returns {| DocumentLoopProcessor.replies := Some ["S2"] |}
       end |}.

(** What the loop returns in the two cases. *)
Definition results_D : list (gmap string DocumentLoopProcessor.value) :=
  [ {[ "document" := DocumentLoopProcessor.VDocument doc_1;
       "summary" := DocumentLoopProcessor.VStr "Error generating summary" ]};
    {[ "document" := DocumentLoopProcessor.VDocument doc_2;
       "summary" := DocumentLoopProcessor.VStr "S2" ]} ].

Definition results_all_replies : list (gmap string DocumentLoopProcessor.value) :=
  [ {[ "document" := DocumentLoopProcessor.VDocument doc_1;
       "summary" := DocumentLoopProcessor.VStr "S1" ]};
    {[ "document" := DocumentLoopProcessor.VDocument doc_2;
       "summary" := DocumentLoopProcessor.VStr "S2" ]} ].

End Scenarios.

(** ** Concrete runs of the command *)

Module CommandScenarios.
Import HackerNewsNewestFetcher Scenarios.

(** Story 106 has a url and a [time] that is [null]. *)
Definition item_106 : gmap string json :=
  {[ "id" := JInt 106; "type" := JStr "story"; "title" := JStr "Story C";
     "url" := JStr "https://a.example"; "time" := JNull ]}.

(** Story 107 has a url but neither title nor author. *)
Definition item_107 : gmap string json :=
  {[ "id" := JInt 107; "type" := JStr "story"; "url" := JStr "https://a.example" ]}.

Definition more_items (story_id : json) : outcome json :=
  match story_id with
  | JInt 106 => Returns (JObj item_106)
  | JInt 107 => Returns (JObj item_107)
  | _ => items story_id
  end.

(** A feed in which the second of three entries has the unusable [time]. *)
Definition bad_time : world :=
  {| get_newstories := Returns (JArr [JInt 101; JInt 106; JInt 103]);
     get_item := more_items;
     get_text := get_text both_pages;
     trafilatura_extract := extract;
     fromtimestamp_float := fun _ => Raises OtherException |}.

(** A feed of one story without title. *)
Definition untitled : world :=
  {| get_newstories := Returns (JArr [JInt 107]);
     get_item := more_items;
     get_text := get_text both_pages;
     trafilatura_extract := extract;
     fromtimestamp_float := fun _ => Raises OtherException |}.

(** A service whose first reply is the text of a sentinel. *)
Definition sentinel_reply : DocumentLoopProcessor.world :=
  {| DocumentLoopProcessor.read_template := Returns "Summarize: ";
     DocumentLoopProcessor.render_prompt := fun template doc =>
       Returns (template +:+ content doc);
     DocumentLoopProcessor.generate := fun _ _ _ =>
       Returns {| DocumentLoopProcessor.replies := Some ["Error generating summary"] |} |}.

(** The worlds of the command: a key, a feed and a service. *)
Definition command_world (key : option string) (feed : world) (order : list nat)
    (service : DocumentLoopProcessor.world) : Main.world :=
  {| Main.OPENAI_API_KEY := key;
     Main.pipeline_world :=
       {| Pipeline.fetcher_world := feed;
          Pipeline.completion := order;
          Pipeline.processor_world := service |};
     Main.str_float := fun _ => "0.5";
     Main.str_json_other := fun _ => "...";
     Main.str_Document := fun _ => "Document(...)";
     Main.str_exception := fun _ => "TypeError";
     Main.duration := "0.42" |}.

Definition two_stories : Main.world :=
  command_world (Some "sk-test") both_pages [2; 0; 1]%nat scenario_D.
Definition index_down : Main.world :=
  command_world (Some "sk-test") scenario_B [] scenario_D.
Definition one_bad_time : Main.world :=
  command_world (Some "sk-test") bad_time [2; 0; 1]%nat scenario_D.

(** What [main] collects for the two stories. *)
Definition summaries_two_stories : list Main.summary_item :=
  [ {| Main.title := JStr "Story A"; Main.url := JStr "https://a.example";
       Main.score := JInt 0; Main.comments := JInt 0;
       Main.summary := DocumentLoopProcessor.VStr "Error generating summary";
       Main.time_iso := JStr "2023-11-14T22:13:20+00:00"; Main.by_ := JStr "alice" |};
    {| Main.title := JStr "Story B"; Main.url := JStr "https://b.example";
       Main.score := JInt 7; Main.comments := JInt 2;
       Main.summary := DocumentLoopProcessor.VStr "S2";
       Main.time_iso := JNull; Main.by_ := JStr "carol" |} ].

(** The Document of story 107. *)
Definition doc_3 : Document :=
  {| content := "Text A";
     meta := {[ "title" := JNull; "url" := JStr "https://a.example";
                "score" := JInt 0; "descendants" := JInt 0; "by" := JNull;
                "time_iso" := JNull; "id" := JInt 107 ]} |}.

Definition story_B : Main.summary_item :=
  {| Main.title := JStr "Story B"; Main.url := JStr "https://b.example";
     Main.score := JInt 7; Main.comments := JInt 2;
     Main.summary := DocumentLoopProcessor.VStr "S2";
     Main.time_iso := JNull; Main.by_ := JStr "carol" |}.

End CommandScenarios.

(** * Properties *)

(** ** [gather]: the values come in the order of the tasks *)

Section gather_facts.
Context {A : Type}.
Implicit Types (tasks : list (outcome A)) (completion : list nat)
  (slots : list (option A)).

Lemma gather_loop_sound tasks completion : ∀ slots slots',
  asyncio.gather_loop tasks completion slots = Returns slots' →
  asyncio.slots_sound tasks slots →
  asyncio.slots_sound tasks slots' ∧ length slots' = length slots.
Proof.
  induction completion as [|i completion IH]; intros slots slots' Hrun Hsound; simpl in Hrun.
  - by simplify_eq.
  - destruct (tasks !! i) as [[a|e]|] eqn:Hi; [|done|by apply IH].
    apply IH in Hrun as [Hs Hlen].
    + split; [done|]. rewrite Hlen. apply length_insert.
    + intros j b Hj. destruct (decide (i = j)) as [<-|Hne].
      * destruct (decide (i < length slots)%nat) as [Hlt|Hge].
        -- rewrite list_lookup_insert_eq in Hj by done. congruence.
        -- rewrite list_insert_ge in Hj by lia. by apply Hsound.
      * rewrite list_lookup_insert_ne in Hj by done. by apply Hsound.
Qed.

(** A filled slot stays filled. *)
Lemma gather_loop_keeps tasks completion : ∀ slots slots' (j : nat),
  asyncio.gather_loop tasks completion slots = Returns slots' →
  (∃ a, slots !! j = Some (Some a)) → ∃ a, slots' !! j = Some (Some a).
Proof.
  induction completion as [|i completion IH]; intros slots slots' j Hrun Hj; simpl in Hrun.
  - by simplify_eq.
  - destruct (tasks !! i) as [[a|e]|] eqn:Hi; [|done|by eapply IH].
    eapply IH; [done|]. destruct Hj as [b Hj].
    destruct (decide (i = j)) as [<-|Hne].
    + exists a. apply list_lookup_insert_eq. by eapply lookup_lt_Some.
    + exists b. by rewrite list_lookup_insert_ne.
Qed.

(** Every task named by the completion order has its slot filled. *)
Lemma gather_loop_fills tasks completion : ∀ slots slots' (j : nat),
  asyncio.gather_loop tasks completion slots = Returns slots' →
  j ∈ completion → (j < length slots)%nat → (j < length tasks)%nat →
  ∃ a, slots' !! j = Some (Some a).
Proof.
  induction completion as [|i completion IH]; intros slots slots' j Hrun Hin Hj Hjt;
    simpl in Hrun.
  - by apply elem_of_nil in Hin.
  - apply elem_of_cons in Hin as [->|Hin].
    + destruct (tasks !! i) as [[a|e]|] eqn:Hi; [|done|].
      * eapply gather_loop_keeps; [done|]. exists a. by apply list_lookup_insert_eq.
      * apply lookup_ge_None in Hi. lia.
    + destruct (tasks !! i) as [[a|e]|] eqn:Hi; [|done|by eapply IH].
      eapply IH; [done..| |done]. by rewrite length_insert.
Qed.

(** An exception that [gather] raises is the exception of one of the tasks. *)
Lemma gather_loop_raises tasks completion : ∀ slots e,
  asyncio.gather_loop tasks completion slots = Raises e → Raises e ∈ tasks.
Proof.
  induction completion as [|i completion IH]; intros slots e Hrun; simpl in Hrun; [done|].
  destruct (tasks !! i) as [[a|e']|] eqn:Hi; [by eapply IH| |by eapply IH].
  simplify_eq. by eapply list_elem_of_lookup_2.
Qed.

Lemma slots_sound_replicate tasks n : asyncio.slots_sound tasks (replicate n None).
Proof. intros j a Hj. apply lookup_replicate in Hj as [? _]. done. Qed.

(** Whatever the completion order, the list that [gather] returns holds the
    value of the i-th task at position i. *)
Lemma gather_Returns tasks completion (l : list A) :
  asyncio.gather tasks completion = Some (Returns l) → tasks = Returns <$> l.
Proof.
  unfold asyncio.gather. intros Hg.
  destruct (asyncio.gather_loop _ _ _) as [slots|e] eqn:Hrun; [|done].
  apply gather_loop_sound in Hrun as [Hsound Hlen]; [|apply slots_sound_replicate].
  rewrite length_replicate in Hlen.
  destruct (mapM id slots) as [l'|] eqn:Hm; [|done].
  simpl in Hg. assert (l' = l) as -> by congruence. apply mapM_Some in Hm.
  apply list_eq. intros j. rewrite list_lookup_fmap.
  destruct (l !! j) as [a|] eqn:Hl; simpl.
  - destruct (Forall2_lookup_r _ _ _ _ _ Hm Hl) as (s & Hs & Hsa).
    simpl in Hsa. subst s. by apply Hsound.
  - apply lookup_ge_None. apply lookup_ge_None in Hl.
    apply Forall2_length in Hm. lia.
Qed.

Lemma gather_Raises tasks completion e :
  asyncio.gather tasks completion = Some (Raises e) → Raises e ∈ tasks.
Proof.
  unfold asyncio.gather. intros Hg.
  destruct (asyncio.gather_loop _ _ _) as [slots|e'] eqn:Hrun.
  - by destruct (mapM id slots).
  - simplify_eq. by eapply gather_loop_raises.
Qed.

(** A complete completion order lets [gather] finish. *)
Lemma gather_complete tasks completion :
  asyncio.complete tasks completion → is_Some (asyncio.gather tasks completion).
Proof.
  unfold asyncio.complete, asyncio.gather. intros Hperm.
  destruct (asyncio.gather_loop _ _ _) as [slots|e] eqn:Hrun; [|done].
  assert (∃ l, mapM id slots = Some l) as [l ->]; [|done].
  pose proof (gather_loop_sound _ _ _ _ Hrun (slots_sound_replicate _ _)) as [_ Hlen].
  rewrite length_replicate in Hlen.
  assert (Forall (λ s, is_Some s) slots) as Hall.
  { apply Forall_lookup. intros j s Hj.
    assert (j < length tasks)%nat as Hlt by (apply lookup_lt_Some in Hj; lia).
    destruct (gather_loop_fills _ _ _ _ j Hrun) as [a Ha]; [| |done|].
    - rewrite Hperm. apply elem_of_seq. lia.
    - by rewrite length_replicate.
    - rewrite Ha in Hj. by simplify_eq. }
  clear -Hall. induction slots as [|s slots IH].
  - by exists [].
  - apply Forall_cons in Hall as [[a ->] Hall]. destruct (IH Hall) as [l Hl].
    exists (a :: l). apply mapM_Some, Forall2_cons. split; [done|]. by apply mapM_Some.
Qed.

(** With a complete order, [gather] returns exactly when no task raises. *)
Lemma gather_complete_Returns tasks completion (l : list A) :
  asyncio.complete tasks completion → tasks = Returns <$> l →
  asyncio.gather tasks completion = Some (Returns l).
Proof.
  intros Hc Htasks. destruct (gather_complete _ _ Hc) as [[l'|e] Hg].
  - pose proof (gather_Returns _ _ _ Hg) as Hl'. rewrite Hg. do 2 f_equal.
    rewrite Htasks in Hl'. symmetry.
    eapply (list_fmap_eq_inj Returns); [|done]. by intros ?? [=].
  - apply gather_Raises in Hg. rewrite Htasks in Hg.
    apply list_elem_of_fmap in Hg as (? & ? & ?). done.
Qed.

End gather_facts.

(** ** The ingestion stage *)

Section fetcher_facts.
Import HackerNewsNewestFetcher.
Variable w : world.

Lemma eqb_false_ne (s : string) : String.eqb s "" = false → s ≠ "".
Proof. intros H ->. by rewrite String.eqb_refl in H. Qed.

Lemma _fetch_url_Some url text :
  _fetch_url w url = Some text → get_text w url = Returns text.
Proof.
  unfold _fetch_url. destruct (get_text w url) as [t|[]]; congruence.
Qed.

(** Text comes out of the extractor only when the page was fetched, and both
    the page and the extracted text are non-empty. *)
Lemma _extract_article_text_Some url text :
  _extract_article_text w url = Some text →
  ∃ html, get_text w url = Returns html ∧ html ≠ ""
    ∧ trafilatura_extract w html = Returns (Some text) ∧ text ≠ "".
Proof.
  unfold _extract_article_text.
  destruct (_fetch_url w url) as [html|] eqn:Hfetch; [|done].
  destruct (String.eqb html "") eqn:Hhtml; [done|].
  destruct (trafilatura_extract w html) as [[t|]|e] eqn:Hex; [|done..].
  destruct (String.eqb t "") eqn:Ht; [done|].
  intros [= <-]. exists html.
  split_and!; eauto using _fetch_url_Some, eqb_false_ne.
Qed.

Lemma _fetch_story_details_JObj story_id d :
  _fetch_story_details w story_id = JObj d → get_item w story_id = Returns (JObj d).
Proof.
  unfold _fetch_story_details. destruct (get_item w story_id) as [v|[]]; congruence.
Qed.

Lemma eq_str_get_true (d : gmap string json) key s :
  eq_str (dict_get d key) s = true → d !! key = Some (JStr s).
Proof.
  unfold dict_get. destruct (d !! key) as [[]|]; simpl; try done.
  intros ->%String.eqb_eq. done.
Qed.

(** Everything that must have happened for a unit of work to end with a
    Document. *)
Lemma _process_story_Some story_id doc :
  _process_story w story_id = Returns (Some doc) →
  ∃ d url time_iso,
    get_item w story_id = Returns (JObj d)
    ∧ d !! "type" = Some (JStr "story")
    ∧ d !! "url" = Some url ∧ truthy url = true
    ∧ time_iso_of w d = Returns time_iso
    ∧ _extract_article_text w url = Some (content doc)
    ∧ meta doc = metadata_of d url time_iso story_id.
Proof.
  unfold _process_story.
  destruct (truthy (_fetch_story_details w story_id)) eqn:Htrue; [simpl|done].
  destruct (_fetch_story_details w story_id) as [| | | | | |d] eqn:Hdet; try done.
  destruct (eq_str (dict_get d "type") "story") eqn:Htype; [simpl|done].
  destruct (d !! "url") as [url|] eqn:Hurl; [|done].
  destruct (truthy url) eqn:Hu; [simpl|done].
  fold (time_iso_of w d).
  destruct (time_iso_of w d) as [time_iso|e] eqn:Htime; [simpl|done].
  destruct (_extract_article_text w url) as [text|] eqn:Htext; [|done].
  destruct (String.eqb text "") eqn:Hne; [done|].
  intros [= <-]. exists d, url, time_iso. simpl.
  split_and!; eauto using _fetch_story_details_JObj, eq_str_get_true.
Qed.


Lemma omap_id_document_of (ids : list json) (processed : list (option Document)) :
  _process_story w <$> ids = Returns <$> processed →
  omap id processed = omap (document_of w) ids.
Proof.
  revert processed. induction ids as [|story_id ids IH]; intros [|p processed] Heq;
    try done.
  injection Heq as Hp Heq. apply IH in Heq.
  change (omap id (p :: processed))
    with (match id p with Some y => y :: omap id processed | None => omap id processed end).
  change (omap (document_of w) (story_id :: ids))
    with (match document_of w story_id with
          | Some y => y :: omap (document_of w) ids
          | None => omap (document_of w) ids
          end).
  unfold document_of at 1. rewrite Hp, Heq. by destruct p.
Qed.

(** The launched tasks do not depend on the completion order. *)
Lemma launched_completion last_k completion completion' :
  launched (run w last_k completion) = launched (run w last_k completion').
Proof.
  unfold run, _run_async. destruct (get_newstories w) as [top|[]]; try done.
  by destruct (sliced_items top last_k).
Qed.

(** A run that returns has either failed to fetch the index, or returns the
    Documents of the launched tasks in the order of the tasks. *)
Lemma run_Returns last_k completion out :
  ended (run w last_k completion) = Some (Returns out) →
  documents out = omap (document_of w) (launched (run w last_k completion)).
Proof.
  unfold run, _run_async. destruct (get_newstories w) as [top|[]].
  2-4: by intros [= <-].
  destruct (sliced_items top last_k) as [ids|e]; [simpl|done].
  destruct (asyncio.gather _ _) as [[processed|e]|] eqn:Hg; [|done..].
  intros [= <-]. simpl. apply gather_Returns in Hg. by apply omap_id_document_of.
Qed.

(** Under a complete completion order a run always ends. *)
Lemma run_ends last_k completion :
  completion ≡ₚ seq 0 (length (launched (run w last_k completion))) →
  is_Some (ended (run w last_k completion)).
Proof.
  unfold run, _run_async. destruct (get_newstories w) as [top|[]]; try done.
  destruct (sliced_items top last_k) as [ids|e]; [simpl|done].
  intros Hperm.
  destruct (gather_complete (_process_story w <$> ids) completion) as [r Hr].
  - unfold asyncio.complete. by rewrite length_fmap.
  - rewrite Hr. by destruct r.
Qed.

End fetcher_facts.

(** ** The calendar conversion *)

Section datetime_facts.
Local Open Scope Z_scope.

Lemma is_leap_shifted (era yoe : Z) :
  0 <= yoe <= 399 ->
  yoe mod 4 = 3 /\ (yoe mod 100 <> 99 \/ yoe = 399) ->
  is_leap (yoe + era * 400 + 1) = true.
Proof.
  intros Hyoe Hleap. unfold is_leap.
  apply andb_true_iff. split.
  - apply Z.eqb_eq. Z.to_euclidean_division_equations. lia.
  - apply orb_true_iff. destruct Hleap as [_ [H|H]].
    + left. apply negb_true_iff, Z.eqb_neq. Z.to_euclidean_division_equations. lia.
    + right. apply Z.eqb_eq. Z.to_euclidean_division_equations. lia.
Qed.

Local Ltac case_tests :=
  repeat match goal with
  | |- context [Z.eqb ?a ?b] => destruct (Z.eqb_spec a b)
  | |- context [Z.leb ?a ?b] => destruct (Z.leb_spec a b)
  | |- context [Z.ltb ?a ?b] => destruct (Z.ltb_spec a b)
  end.

Local Ltac div_lia := Z.to_euclidean_division_equations; lia.

(** [civil_from_days] yields a date of the calendar, and that date is the
    one of the given day number. *)
Lemma civil_from_days_spec (z : Z) :
  let '(y, m, d) := civil_from_days z in
  days_from_civil y m d = z /\ 1 <= m <= 12 /\ 1 <= d <= days_in_month y m.
Proof.
  unfold civil_from_days, days_from_civil.
  set (z' := z + 719468).
  set (era := z' / 146097).
  set (doe := z' - era * 146097).
  assert (0 <= doe < 146097) as Hdoe.
  { unfold doe, era. pose proof (Z.mod_pos_bound z' 146097 ltac:(lia)) as H.
    rewrite Z.mod_eq in H by lia. lia. }
  assert (z = era * 146097 + doe - 719468) as Hz by (unfold doe, z'; lia).
  clearbody doe era. clear z'. subst z.
  set (yoe := (doe - doe / 1460 + doe / 36524 - doe / 146096) / 365).
  assert (0 <= yoe <= 399) as Hyoe by (unfold yoe; div_lia).
  set (doy := doe - (365 * yoe + yoe / 4 - yoe / 100)).
  assert (0 <= doy <= 365) as Hdoy by (unfold doy, yoe; div_lia).
  assert (doy = 365 -> yoe mod 4 = 3 /\ (yoe mod 100 <> 99 \/ yoe = 399)) as Hleap
    by (unfold doy, yoe; div_lia).
  assert (doe = 365 * yoe + yoe / 4 - yoe / 100 + doy) as Hdoe' by (unfold doy; lia).
  clearbody doy yoe. subst doe.
  pose proof (is_leap_shifted era yoe Hyoe) as Hleap'.
  assert ((yoe + era * 400) / 400 = era) as Hera by div_lia.
  set (mp := (5 * doy + 2) / 153).
  assert (153 * mp <= 5 * doy + 2 < 153 * mp + 153) as Hmp by (unfold mp; div_lia).
  clearbody mp.
  destruct (Z.ltb_spec mp 10) as [Hlt|Hge].
  - destruct (Z.leb_spec (mp + 3) 2); [lia|].
    destruct (Z.ltb_spec 2 (mp + 3)); [|lia].
    replace (mp + 3 - 3) with mp by lia. rewrite Hera.
    split; [div_lia|]. split; [lia|].
    unfold days_in_month. case_tests; cbn [orb]; try lia.
    all: div_lia.
  - destruct (Z.leb_spec (mp - 9) 2); [|lia].
    destruct (Z.ltb_spec 2 (mp - 9)); [lia|].
    replace (mp - 9 + 9) with mp by lia.
    replace (yoe + era * 400 + 1 - 1) with (yoe + era * 400) by lia. rewrite Hera.
    split; [div_lia|]. split; [lia|].
    unfold days_in_month.
    destruct (is_leap _) eqn:Hl.
    + case_tests; cbn [orb]; try lia. all: div_lia.
    + assert (doy <> 365) as Hne.
      { intros Heq. pose proof (Hleap' (Hleap Heq)) as Ht. congruence. }
      case_tests; cbn [orb]; try lia. all: div_lia.
Qed.

(** What [fromtimestamp_utc] returns is a valid date and time whose epoch
    seconds are the argument. *)
Lemma fromtimestamp_utc_Returns (t : Z) (dt : datetime) :
  fromtimestamp_utc t = Returns dt -> timegm dt = t /\ valid_datetime dt.
Proof.
  unfold fromtimestamp_utc.
  pose proof (civil_from_days_spec (t / 86400)) as Hcivil.
  destruct (civil_from_days (t / 86400)) as [[y m] d].
  destruct Hcivil as (Hdays & Hm & Hd).
  destruct (Z.ltb_spec y MINYEAR) as [|Hmin]; [done|].
  destruct (Z.ltb_spec MAXYEAR y) as [|Hmax]; [done|].
  simpl. intros [= <-]. unfold timegm, valid_datetime. simpl. rewrite Hdays.
  split; [div_lia|]. split_and!; try done; div_lia.
Qed.

(** It raises exactly when the year is out of range. *)
Lemma fromtimestamp_utc_in_range (t : Z) :
  -62135596800 <= t <= 253402300799 -> exists dt, fromtimestamp_utc t = Returns dt.
Proof.
  intros Ht. unfold fromtimestamp_utc.
  pose proof (civil_from_days_spec (t / 86400)) as Hcivil.
  destruct (civil_from_days (t / 86400)) as [[y m] d] eqn:Hc.
  destruct Hcivil as (Hdays & Hm & Hd).
  assert (MINYEAR <= y <= MAXYEAR) as [Hlo Hhi].
  { assert (-719162 <= t / 86400 <= 2932896) as Hrange by div_lia.
    rewrite <- Hdays in Hrange. revert Hrange.
    unfold days_from_civil, MINYEAR, MAXYEAR.
    assert (d <= 31) by (revert Hd; unfold days_in_month; case_tests; cbn [orb];
                          try destruct (is_leap y); lia).
    case_tests; intros; div_lia. }
  destruct (Z.ltb_spec y MINYEAR); [lia|]. destruct (Z.ltb_spec MAXYEAR y); [lia|].
  simpl. eauto.
Qed.

End datetime_facts.

(** ** Runs of the ingestion stage *)

Section run_facts.
Import HackerNewsNewestFetcher.
Variable w : world.

Lemma omap_length_le {A B : Type} (f : A → option B) (l : list A) :
  (length (omap f l) ≤ length l)%nat.
Proof.
  induction l as [|a l IH]; [done|].
  change (omap f (a :: l))
    with (match f a with Some y => y :: omap f l | None => omap f l end).
  destruct (f a); simpl; lia.
Qed.

Lemma omap_cons_Some {A B : Type} (f : A → option B) (a : A) (l : list A) (y : B) :
  f a = Some y → omap f (a :: l) = y :: omap f l.
Proof.
  intros H.
  change (omap f (a :: l))
    with (match f a with Some y => y :: omap f l | None => omap f l end).
  by rewrite H.
Qed.

(** [omap] keeps the relative order of the elements it keeps. *)
Lemma omap_order {A B : Type} (f : A → option B) (l : list A) (i j : nat) (a b : A) (x y : B) :
  (i < j)%nat → l !! i = Some a → l !! j = Some b → f a = Some x → f b = Some y →
  ∃ p q : nat, (p < q)%nat ∧ omap f l !! p = Some x ∧ omap f l !! q = Some y.
Proof.
  intros Hij Hi Hj Hx Hy.
  assert (drop (S i) l !! (j - S i)%nat = Some b) as Hj'.
  { rewrite lookup_drop. rewrite <- Hj. f_equal. lia. }
  rewrite <- (take_drop_middle l i a Hi).
  rewrite <- (take_drop_middle _ _ b Hj').
  set (l1 := take i l). set (l2 := take (j - S i) (drop (S i) l)).
  set (l3 := drop (S (j - S i)) (drop (S i) l)).
  rewrite omap_app, (omap_cons_Some f a _ x Hx), omap_app, (omap_cons_Some f b _ y Hy).
  exists (length (omap f l1)), (length (omap f l1) + S (length (omap f l2)))%nat.
  split; [lia|]. split.
  - by apply list_lookup_middle.
  - rewrite lookup_app_r by lia.
    replace (length (omap f l1) + S (length (omap f l2)) - length (omap f l1))%nat
      with (S (length (omap f l2))) by lia.
    simpl. by apply list_lookup_middle.
Qed.

(** The three ways a run can go. *)
Lemma run_cases last_k completion :
  (∃ e, get_newstories w = Raises e
     ∧ run w last_k completion
       = {| launched := []; ended := Some (Returns {| documents := [] |}) |})
  ∨ (∃ top e, get_newstories w = Returns top
     ∧ sliced_items top last_k = Raises e
     ∧ run w last_k completion = {| launched := []; ended := Some (Raises e) |})
  ∨ (∃ top ids, get_newstories w = Returns top
     ∧ sliced_items top last_k = Returns ids
     ∧ launched (run w last_k completion) = ids
     ∧ ended (run w last_k completion)
       = match asyncio.gather (_process_story w <$> ids) completion with
         | None => None
         | Some (Raises e) => Some (Raises e)
         | Some (Returns processed) =>
             Some (Returns {| documents := omap id processed |})
         end).
Proof.
  unfold run, _run_async. destruct (get_newstories w) as [top|e] eqn:Htop.
  - right. destruct (sliced_items top last_k) as [ids|e] eqn:Hs.
    + right. by exists top, ids.
    + left. by exists top, e.
  - left. exists e. by destruct e.
Qed.

(** The number of launched tasks is bounded by a non-negative [last_k]; on
    a list, the launched IDs are its first [last_k] entries. *)
Lemma launched_length last_k completion :
  (0 <= last_k)%Z → (length (launched (run w last_k completion)) ≤ Z.to_nat last_k)%nat.
Proof.
  intros Hk.
  assert (∀ (X : Type) (l : list X), (length (slice_to l last_k) ≤ Z.to_nat last_k)%nat) as Hslice.
  { intros X l. unfold slice_to, slice_stop.
    destruct (Z.ltb_spec last_k 0); [lia|]. rewrite length_take. lia. }
  destruct (run_cases last_k completion)
    as [(e & _ & ->)|[(top & e & _ & _ & ->)|(top & ids & _ & Hs & -> & _)]];
    simpl; try lia.
  destruct top; simpl in Hs; try done; injection Hs as <-.
  - rewrite length_fmap. apply Hslice.
  - apply Hslice.
Qed.

Lemma launched_list last_k completion (ids : list json) :
  (0 <= last_k)%Z → get_newstories w = Returns (JArr ids) →
  launched (run w last_k completion) = take (Z.to_nat last_k) ids.
Proof.
  intros Hk Htop. unfold run, _run_async. rewrite Htop. simpl.
  unfold slice_to, slice_stop. by destruct (Z.ltb_spec last_k 0); [lia|].
Qed.

(** Every Document of the output is the one some launched task ended with. *)
Lemma run_document_origin last_k completion out doc :
  ended (run w last_k completion) = Some (Returns out) →
  doc ∈ documents out →
  ∃ story_id, story_id ∈ launched (run w last_k completion)
    ∧ _process_story w story_id = Returns (Some doc).
Proof.
  intros Hrun Hdoc. rewrite (run_Returns _ _ _ _ Hrun) in Hdoc.
  apply list_elem_of_omap in Hdoc as (story_id & Hin & Hd).
  exists story_id. split; [done|]. unfold document_of in Hd.
  destruct (_process_story w story_id) as [[d|]|]; congruence.
Qed.

(** Once a run has returned under some completion order, it returns the same
    under every complete one. *)
Lemma run_Returns_any_order last_k completion completion' out :
  ended (run w last_k completion) = Some (Returns out) →
  completion' ≡ₚ seq 0 (length (launched (run w last_k completion))) →
  ended (run w last_k completion') = Some (Returns out).
Proof.
  intros Hrun Hperm.
  destruct (run_cases last_k completion)
    as [(e & Htop & Hr)|[(top & e & Htop & Hs & Hr)|(top & ids & Htop & Hs & Hl & He)]].
  - rewrite Hr in Hrun. simpl in Hrun. rewrite <- Hrun.
    unfold run, _run_async. rewrite Htop. by destruct e.
  - rewrite Hr in Hrun. done.
  - rewrite He in Hrun. rewrite Hl in Hperm.
    destruct (asyncio.gather _ completion) as [[processed|e]|] eqn:Hg; try done.
    apply gather_Returns in Hg.
    unfold run, _run_async. rewrite Htop, Hs. simpl.
    rewrite (gather_complete_Returns _ completion' processed); [done| |done].
    unfold asyncio.complete. by rewrite length_fmap.
Qed.

(** A run returns whenever the index is fetched and can be sliced, the
    completion order is complete and no task raises. *)
Lemma run_returns last_k completion top ids :
  get_newstories w = Returns top →
  sliced_items top last_k = Returns ids →
  completion ≡ₚ seq 0 (length ids) →
  (∀ story_id, story_id ∈ ids → ∃ r, _process_story w story_id = Returns r) →
  ended (run w last_k completion)
  = Some (Returns {| documents := omap (document_of w) ids |}).
Proof.
  intros Htop Hs Hperm Hall.
  assert (∃ processed, _process_story w <$> ids = Returns <$> processed) as [processed Hp].
  { clear Hs Hperm. induction ids as [|story_id ids' IH].
    - by exists [].
    - destruct (Hall story_id) as [r Hr]; [apply list_elem_of_here|].
      destruct IH as [processed Hp].
      + intros s Hin. apply Hall. by apply list_elem_of_further.
      + exists (r :: processed). rewrite !fmap_cons. by rewrite Hr, Hp. }
  unfold run, _run_async. rewrite Htop, Hs. simpl.
  rewrite (gather_complete_Returns _ completion processed); [| |done].
  - by rewrite (omap_id_document_of w ids processed Hp).
  - unfold asyncio.complete. by rewrite length_fmap.
Qed.

End run_facts.

(** ** Claims about the ingestion stage *)

Section ingestion_claims.
Import HackerNewsNewestFetcher Scenarios.

(** C2.  A Document is produced only if the fetched details have type
    "story", a url that is present and non-empty, and the extraction returned
    non-empty text.  Every Document in the output of a run therefore has
    non-empty content and comes from a launched story ID whose details meet
    these conditions; a story ID that fails one of them ends with no
    Document. *)
Theorem C2_document_requires_story_url_text (w : world) (last_k : Z)
    (completion : list nat) (out : output) :
  ended (run w last_k completion) = Some (Returns out) →
  (∀ doc, doc ∈ documents out →
     content doc ≠ ""
     ∧ ∃ story_id d url html,
         story_id ∈ launched (run w last_k completion)
         ∧ get_item w story_id = Returns (JObj d)
         ∧ d !! "type" = Some (JStr "story")
         ∧ d !! "url" = Some url ∧ truthy url = true
         ∧ get_text w url = Returns html
         ∧ trafilatura_extract w html = Returns (Some (content doc)))
  ∧ (∀ story_id,
       (∀ d, get_item w story_id = Returns (JObj d) →
          d !! "type" ≠ Some (JStr "story")
          ∨ d !! "url" = None
          ∨ (∃ url, d !! "url" = Some url
               ∧ (truthy url = false ∨ _extract_article_text w url = None))) →
       document_of w story_id = None).
Proof.
  intros Hrun. split.
  - intros doc Hdoc.
    destruct (run_document_origin _ _ _ _ _ Hrun Hdoc) as (story_id & Hin & Hp).
    apply _process_story_Some in Hp
      as (d & url & time_iso & Hitem & Htype & Hurl & Hu & _ & Htext & _).
    apply _extract_article_text_Some in Htext as (html & Hget & _ & Hex & Hne).
    split; [done|]. exists story_id, d, url, html. by split_and!.
  - intros story_id Hfail. unfold document_of.
    destruct (_process_story w story_id) as [[doc|]|] eqn:Hp; try done.
    apply _process_story_Some in Hp
      as (d & url & time_iso & Hitem & Htype & Hurl & Hu & _ & Htext & _).
    destruct (Hfail d Hitem) as [H|[H|(url' & Hurl' & [H|H])]]; congruence.
Qed.

(** C3.  The output of a run holds the Documents of the launched story IDs in
    the order of the truncated index list, entries without a Document
    dropped: of two surviving IDs, the Document of the earlier one comes
    first.  The completion order of the tasks has no influence: every
    complete completion order yields the same output. *)
Theorem C3_output_in_index_order (w : world) (last_k : Z)
    (completion : list nat) (out : output) :
  ended (run w last_k completion) = Some (Returns out) →
  documents out = omap (document_of w) (launched (run w last_k completion))
  ∧ (∀ (i j : nat) a b da db,
       (i < j)%nat →
       launched (run w last_k completion) !! i = Some a →
       launched (run w last_k completion) !! j = Some b →
       _process_story w a = Returns (Some da) →
       _process_story w b = Returns (Some db) →
       ∃ p q : nat, (p < q)%nat
         ∧ documents out !! p = Some da ∧ documents out !! q = Some db)
  ∧ (∀ completion',
       completion' ≡ₚ seq 0 (length (launched (run w last_k completion))) →
       run w last_k completion' = run w last_k completion).
Proof.
  intros Hrun. pose proof (run_Returns _ _ _ _ Hrun) as Hdocs. split_and!.
  - done.
  - intros i j a b da db Hij Ha Hb Hda Hdb. rewrite Hdocs.
    apply (omap_order _ _ i j a b); try done.
    + unfold document_of. by rewrite Hda.
    + unfold document_of. by rewrite Hdb.
  - intros completion' Hperm.
    pose proof (run_Returns_any_order _ _ _ _ _ Hrun Hperm) as Hrun'.
    pose proof (launched_completion w last_k completion' completion) as Hl.
    destruct (run w last_k completion'), (run w last_k completion).
    simpl in *. congruence.
Qed.

(** The handlers of lines 173-184: when the request for the index or the
    parsing of its body raises, with a transport error, a timeout or any
    other exception, the run returns an empty Document list, raises nothing
    and launches no per-ID task. *)
Lemma index_fetch_raises_gives_empty (w : world) (last_k : Z)
    (completion : list nat) (e : exn) :
  get_newstories w = Raises e →
  run w last_k completion
  = {| launched := []; ended := Some (Returns {| documents := [] |}) |}.
Proof.
  intros Hfail. unfold run, _run_async. rewrite Hfail. by destruct e.
Qed.

(** C8.  For every K ≥ 1 a run returns at most K Documents: at most K tasks
    are launched, for the first K entries of the fetched list, and the
    output holds at most one Document per launched task. *)
Theorem C8_at_most_K_documents (w : world) (last_k : Z)
    (completion : list nat) (out : output) :
  (1 <= last_k)%Z →
  ended (run w last_k completion) = Some (Returns out) →
  (Z.of_nat (length (documents out)) <= last_k)%Z
  ∧ (length (documents out) ≤ length (launched (run w last_k completion)))%nat
  ∧ (Z.of_nat (length (launched (run w last_k completion))) <= last_k)%Z
  ∧ (∀ ids, get_newstories w = Returns (JArr ids) →
       launched (run w last_k completion) = take (Z.to_nat last_k) ids).
Proof.
  intros Hk Hrun.
  pose proof (launched_length w last_k completion ltac:(lia)) as Hlen.
  pose proof (omap_length_le (document_of w) (launched (run w last_k completion))) as Hle.
  rewrite <- (run_Returns _ _ _ _ Hrun) in Hle.
  split_and!; try lia.
  intros ids Htop. apply launched_list; [lia|done].
Qed.


(** C10.  The metadata of every Document in the output of a run has exactly
    the keys title, url, score, descendants, by, time_iso and id; id is the
    story ID the task was launched for, url is the non-empty url of the
    fetched details, and score and descendants are the values of the details,
    or 0 where the details lack the field. *)
Theorem C10_metadata_record (w : world) (last_k : Z) (completion : list nat)
    (out : output) (doc : Document) :
  ended (run w last_k completion) = Some (Returns out) →
  doc ∈ documents out →
  ∃ story_id d url,
    story_id ∈ launched (run w last_k completion)
    ∧ get_item w story_id = Returns (JObj d)
    ∧ dom (meta doc)
      =@{gset string} {[ "title"; "url"; "score"; "descendants"; "by"; "time_iso"; "id" ]}
    ∧ meta doc !! "id" = Some story_id
    ∧ d !! "url" = Some url ∧ truthy url = true ∧ meta doc !! "url" = Some url
    ∧ (d !! "score" = None → meta doc !! "score" = Some (JInt 0))
    ∧ (d !! "descendants" = None → meta doc !! "descendants" = Some (JInt 0))
    ∧ (∀ v, d !! "score" = Some v → meta doc !! "score" = Some v)
    ∧ (∀ v, d !! "descendants" = Some v → meta doc !! "descendants" = Some v).
Proof.
  intros Hrun Hdoc.
  destruct (run_document_origin _ _ _ _ _ Hrun Hdoc) as (story_id & Hin & Hp).
  apply _process_story_Some in Hp
    as (d & url & time_iso & Hitem & _ & Hurl & Hu & _ & _ & Hmeta).
  exists story_id, d, url. rewrite Hmeta. unfold metadata_of, dict_get_default.
  split_and!; try done.
  - by intros ->.
  - by intros ->.
  - by intros v ->.
  - by intros v ->.
Qed.

(** *** The claims on the scenarios *)

(** Scenario A: one Document, for 101; 102 has no url. *)
Lemma C2_witness :
  ended (run scenario_A 3 [2; 0; 1]%nat) = Some (Returns {| documents := [doc_1] |})
  ∧ (∀ doc, doc ∈ [doc_1] →
       content doc ≠ ""
       ∧ ∃ story_id d url html,
           story_id ∈ launched (run scenario_A 3 [2; 0; 1]%nat)
           ∧ get_item scenario_A story_id = Returns (JObj d)
           ∧ d !! "type" = Some (JStr "story")
           ∧ d !! "url" = Some url ∧ truthy url = true
           ∧ get_text scenario_A url = Returns html
           ∧ trafilatura_extract scenario_A html = Returns (Some (content doc)))
  ∧ (∀ story_id,
       (∀ d, get_item scenario_A story_id = Returns (JObj d) →
          d !! "type" ≠ Some (JStr "story")
          ∨ d !! "url" = None
          ∨ (∃ url, d !! "url" = Some url
               ∧ (truthy url = false ∨ _extract_article_text scenario_A url = None))) →
       document_of scenario_A story_id = None).
Proof.
  assert (ended (run scenario_A 3 [2; 0; 1]%nat)
          = Some (Returns {| documents := [doc_1] |})) as Hrun
    by (vm_compute; reflexivity).
  split; [exact Hrun|].
  exact (C2_document_requires_story_url_text scenario_A 3 [2; 0; 1]%nat _ Hrun).
Defined.

(** Both pages reachable, 103 completing first: the Document of 101 still
    comes before the one of 103, and another completion order changes
    nothing. *)
Lemma C3_witness :
  ended (run both_pages 3 [2; 0; 1]%nat)
  = Some (Returns {| documents := [doc_1; doc_2] |})
  ∧ [doc_1; doc_2]
    = omap (document_of both_pages) (launched (run both_pages 3 [2; 0; 1]%nat))
  ∧ (∃ p q : nat, (p < q)%nat
       ∧ [doc_1; doc_2] !! p = Some doc_1 ∧ [doc_1; doc_2] !! q = Some doc_2)
  ∧ run both_pages 3 [1; 2; 0]%nat = run both_pages 3 [2; 0; 1]%nat.
Proof.
  assert (ended (run both_pages 3 [2; 0; 1]%nat)
          = Some (Returns {| documents := [doc_1; doc_2] |})) as Hrun
    by (vm_compute; reflexivity).
  destruct (C3_output_in_index_order both_pages 3 [2; 0; 1]%nat _ Hrun)
    as (Hdocs & Horder & Hany).
  split; [exact Hrun|]. split; [exact Hdocs|]. split.
  - apply (Horder 0%nat 2%nat (JInt 101) (JInt 103)); first [lia | vm_compute; reflexivity].
  - apply Hany. change ([1; 2; 0]%nat ≡ₚ [0; 1; 2]%nat).
    etrans; [apply perm_skip, perm_swap|apply perm_swap].
Defined.

(** Scenario B: the index endpoint fails with a transport error. *)
Lemma index_fetch_raises_scenario_B :
  get_newstories scenario_B = Raises ClientError
  ∧ run scenario_B 5 [0; 1; 2; 3; 4]%nat
    = {| launched := []; ended := Some (Returns {| documents := [] |}) |}.
Proof.
  split; [reflexivity|].
  apply (index_fetch_raises_gives_empty scenario_B 5 _ ClientError). reflexivity.
Defined.

(** Five IDs in the feed, K = 3: three tasks, two Documents. *)
Lemma C8_witness :
  (1 <= 3)%Z
  ∧ ended (run both_pages 3 [2; 0; 1]%nat)
    = Some (Returns {| documents := [doc_1; doc_2] |})
  ∧ (Z.of_nat (length [doc_1; doc_2]) <= 3)%Z
  ∧ (length [doc_1; doc_2] ≤ length (launched (run both_pages 3 [2; 0; 1]%nat)))%nat
  ∧ (Z.of_nat (length (launched (run both_pages 3 [2; 0; 1]%nat))) <= 3)%Z
  ∧ (∀ ids, get_newstories both_pages = Returns (JArr ids) →
       launched (run both_pages 3 [2; 0; 1]%nat) = take (Z.to_nat 3) ids).
Proof.
  assert (ended (run both_pages 3 [2; 0; 1]%nat)
          = Some (Returns {| documents := [doc_1; doc_2] |})) as Hrun
    by (vm_compute; reflexivity).
  split; [lia|]. split; [exact Hrun|].
  exact (C8_at_most_K_documents both_pages 3 [2; 0; 1]%nat _ ltac:(lia) Hrun).
Defined.


(** The metadata of the Document of 103 in scenario [both_pages]. *)
Lemma C10_witness :
  ended (run both_pages 3 [2; 0; 1]%nat)
  = Some (Returns {| documents := [doc_1; doc_2] |})
  ∧ doc_2 ∈ [doc_1; doc_2]
  ∧ ∃ story_id d url,
      story_id ∈ launched (run both_pages 3 [2; 0; 1]%nat)
      ∧ get_item both_pages story_id = Returns (JObj d)
      ∧ dom (meta doc_2)
        =@{gset string} {[ "title"; "url"; "score"; "descendants"; "by"; "time_iso"; "id" ]}
      ∧ meta doc_2 !! "id" = Some story_id
      ∧ d !! "url" = Some url ∧ truthy url = true ∧ meta doc_2 !! "url" = Some url
      ∧ (d !! "score" = None → meta doc_2 !! "score" = Some (JInt 0))
      ∧ (d !! "descendants" = None → meta doc_2 !! "descendants" = Some (JInt 0))
      ∧ (∀ v, d !! "score" = Some v → meta doc_2 !! "score" = Some v)
      ∧ (∀ v, d !! "descendants" = Some v → meta doc_2 !! "descendants" = Some v).
Proof.
  assert (ended (run both_pages 3 [2; 0; 1]%nat)
          = Some (Returns {| documents := [doc_1; doc_2] |})) as Hrun
    by (vm_compute; reflexivity).
  assert (doc_2 ∈ [doc_1; doc_2]) as Hin by (apply list_elem_of_further, list_elem_of_here).
  split; [exact Hrun|]. split; [exact Hin|].
  exact (C10_metadata_record both_pages 3 [2; 0; 1]%nat _ doc_2 Hrun Hin).
Defined.

(** *** Boundary cases of the model *)

(** Scenario E: a job with a url yields no Document. *)
Example scenario_E_job_excluded :
  _process_story both_pages (JInt 104) = Returns None.
Proof. reflexivity. Qed.

(** The rendering of line 138 on a sample. *)
Example isoformat_sample :
  isoformat <$> fromtimestamp_utc 1700000000 = Returns "2023-11-14T22:13:20+00:00".
Proof. reflexivity. Qed.

(** C5.  The claim fails on an index body that parses but is no list: the
    fetch of the index has not produced a list of IDs, yet no handler of
    lines 173-184 runs, since the slice of line 187 stands after the [try].
    On the body [null] the slice raises and so does the run, where the claim
    has an empty Document list and no exception.  On a string body the
    slice gives its first characters and a per-ID task is launched for each,
    where the claim has no per-ID work. *)
Theorem C5_index_body_not_a_list :
  get_newstories index_null = Returns JNull
  ∧ run index_null 5 []
    = {| launched := []; ended := Some (Raises OtherException) |}
  ∧ get_newstories index_string = Returns (JStr "12é")
  ∧ run index_string 5 [0; 1; 2]%nat
    = {| launched := [JStr "1"; JStr "2"; JStr "é"];
         ended := Some (Returns {| documents := [] |}) |}.
Proof. split_and!; vm_compute; reflexivity. Qed.

(** A negative [last_k] drops entries from the end of the list instead. *)
Example slice_negative :
  slice_to [JInt 101; JInt 102; JInt 103] (-1) = [JInt 101; JInt 102].
Proof. reflexivity. Qed.

End ingestion_claims.

(** ** The summarization loop *)

Section loop_facts.
Import HackerNewsNewestFetcher DocumentLoopProcessor.
Variable self : config.
Variable w : DocumentLoopProcessor.world.

(** The loop appends one result per Document, in order. *)
Lemma loop_imap template : ∀ docs (i : nat) results,
  loop self w template i docs results
  = (results ++ imap (λ j doc, iteration self w template (i + j)%nat doc) docs)%list.
Proof.
  induction docs as [|doc docs IH]; intros i results; simpl.
  - by rewrite app_nil_r.
  - rewrite IH, <- app_assoc. simpl. rewrite Nat.add_0_r. do 2 f_equal.
    apply imap_ext. intros j d _. simpl. f_equal. lia.
Qed.

Lemma run_Returns_loop docs results :
  DocumentLoopProcessor.run self w docs = Returns results →
  ∃ template, read_template w = Returns template
    ∧ results = imap (iteration self w template) docs.
Proof.
  unfold DocumentLoopProcessor.run.
  destruct (read_template w) as [template|e]; [simpl|done].
  intros [= <-]. exists template. split; [done|]. by rewrite loop_imap.
Qed.

(** The summary stored by one iteration, by the way the generation call
    went. *)
Lemma iteration_summary template (i : nat) doc :
  iteration self w template i doc
  = {[ "document" := VDocument doc;
       "summary" := VStr match generation self w template i doc with
                         | Returns r => summary_of r
                         | Raises _ => "Error generating summary"
                         end ]}.
Proof.
  unfold iteration, try_body. by destruct (generation self w template i doc).
Qed.

End loop_facts.

(** ** Claims about the summarization loop *)

Section loop_claims.
Import HackerNewsNewestFetcher DocumentLoopProcessor Scenarios.

(** C1, as stated, fails: the results are dicts with the keys [document] and
    [summary] only.  In scenario D neither result has a [failed] field. *)
Lemma C1_no_failed_field :
  ∃ results, DocumentLoopProcessor.run settings scenario_D [doc_1; doc_2] = Returns results
    ∧ ¬ Forall is_SummaryResult results.
Proof.
  eexists. split; [reflexivity|].
  intros Hall. apply Forall_cons in Hall as [(_ & _ & [v Hv]) _].
  vm_compute in Hv. discriminate Hv.
Qed.

(** C1, amended.  Each element of the sequence that [run] returns is a dict
    with exactly the keys [document] and [summary], and no [failed] field:
    [document] is the input Document of that position, and [summary] is one
    of the two sentinel texts when generation for that Document failed, and
    the first reply when it succeeded. *)
Theorem C1_result_records (self : config) (w : DocumentLoopProcessor.world)
    (docs : list Document) (results : list (gmap string value)) :
  DocumentLoopProcessor.run self w docs = Returns results →
  ∃ template, read_template w = Returns template
    ∧ ∀ (i : nat) r, results !! i = Some r →
        ∃ doc summary,
          docs !! i = Some doc
          ∧ r = {[ "document" := VDocument doc; "summary" := VStr summary ]}
          ∧ dom r =@{gset string} {[ "document"; "summary" ]}
          ∧ r !! "failed" = None
          ∧ (generation_failed self w template i doc = true → sentinel summary)
          ∧ (∀ resp reply rest,
               generation self w template i doc = Returns resp →
               replies resp = Some (reply :: rest) → summary = reply).
Proof.
  intros Hrun. destruct (run_Returns_loop _ _ _ _ Hrun) as (template & Ht & ->).
  exists template. split; [done|]. intros i r Hr.
  rewrite list_lookup_imap in Hr.
  destruct (docs !! i) as [doc|] eqn:Hdoc; [|done].
  injection Hr as <-. rewrite iteration_summary.
  eexists doc, _. split_and!; try done.
  - unfold generation_failed, sentinel, summary_of.
    destruct (generation self w template i doc) as [[[[|reply rest]|]]|];
      intros; try done; auto.
  - intros resp reply rest -> Hreplies. unfold summary_of. by rewrite Hreplies.
Qed.

(** C4.  For every list of Documents, the empty one included, [run] (once the
    template is read) returns exactly one result per Document, in the order
    of the Documents. *)
Theorem C4_one_result_per_document (self : config) (w : DocumentLoopProcessor.world)
    (docs : list Document) (template : string) :
  read_template w = Returns template →
  ∃ results, DocumentLoopProcessor.run self w docs = Returns results
    ∧ length results = length docs
    ∧ (docs = [] → results = [])
    ∧ ∀ (i : nat) doc, docs !! i = Some doc →
        ∃ r, results !! i = Some r ∧ r !! "document" = Some (VDocument doc).
Proof.
  intros Ht. unfold DocumentLoopProcessor.run. rewrite Ht. simpl.
  eexists. split; [reflexivity|]. rewrite loop_imap. simpl. split_and!.
  - apply length_imap.
  - by intros ->.
  - intros i doc Hdoc. rewrite list_lookup_imap, Hdoc. simpl.
    eexists. split; [done|]. by rewrite iteration_summary.
Qed.

(** C6.  For the Document at any position of the loop: when the generation
    call returns at least one reply, the summary is the first reply; when it
    returns none, the summary is "Unable to generate summary"; when it raises,
    the summary is "Error generating summary".  Whatever happens there, every
    Document of the list, the later ones included, gets its result. *)
Theorem C6_summary_by_outcome (self : config) (w : DocumentLoopProcessor.world)
    (docs : list Document) (results : list (gmap string value))
    (i : nat) (doc : Document) :
  DocumentLoopProcessor.run self w docs = Returns results →
  docs !! i = Some doc →
  ∃ template r,
    read_template w = Returns template
    ∧ results !! i = Some r
    ∧ r !! "document" = Some (VDocument doc)
    ∧ (∀ resp reply rest,
         generation self w template i doc = Returns resp →
         replies resp = Some (reply :: rest) →
         r !! "summary" = Some (VStr reply))
    ∧ (∀ resp,
         generation self w template i doc = Returns resp →
         replies resp = Some [] ∨ replies resp = None →
         r !! "summary" = Some (VStr "Unable to generate summary"))
    ∧ (∀ e,
         generation self w template i doc = Raises e →
         r !! "summary" = Some (VStr "Error generating summary"))
    ∧ length results = length docs
    ∧ (∀ (j : nat) doc', docs !! j = Some doc' →
         ∃ r', results !! j = Some r' ∧ r' !! "document" = Some (VDocument doc')).
Proof.
  intros Hrun Hdoc. destruct (run_Returns_loop _ _ _ _ Hrun) as (template & Ht & ->).
  exists template, (iteration self w template i doc).
  rewrite !list_lookup_imap, Hdoc, iteration_summary. split_and!; try done.
  - simpl. by rewrite iteration_summary.
  - intros resp reply rest -> Hreplies. unfold summary_of. by rewrite Hreplies.
  - intros resp -> [Hreplies|Hreplies]; unfold summary_of; by rewrite Hreplies.
  - by intros e ->.
  - apply length_imap.
  - intros j doc' Hj. rewrite list_lookup_imap, Hj. simpl.
    eexists. split; [done|]. by rewrite iteration_summary.
Qed.

(** C7.  Two runs on the same Documents whose collaborators differ only in
    how the generation call of position [i] goes have the same result at
    every other position. *)
Theorem C7_failure_is_isolated (self : config) (w1 w2 : DocumentLoopProcessor.world)
    (docs : list Document) (i : nat) (results1 results2 : list (gmap string value)) :
  read_template w1 = read_template w2 →
  (∀ template doc, render_prompt w1 template doc = render_prompt w2 template doc) →
  (∀ (j : nat) cfg prompt, j ≠ i → generate w1 j cfg prompt = generate w2 j cfg prompt) →
  DocumentLoopProcessor.run self w1 docs = Returns results1 →
  DocumentLoopProcessor.run self w2 docs = Returns results2 →
  length results1 = length results2
  ∧ ∀ j : nat, j ≠ i → results1 !! j = results2 !! j.
Proof.
  intros Htemplate Hrender Hgen Hrun1 Hrun2.
  destruct (run_Returns_loop _ _ _ _ Hrun1) as (t1 & Ht1 & ->).
  destruct (run_Returns_loop _ _ _ _ Hrun2) as (t2 & Ht2 & ->).
  assert (t2 = t1) as -> by congruence.
  split; [by rewrite !length_imap|].
  intros j Hj. rewrite !list_lookup_imap.
  destruct (docs !! j) as [doc|]; [simpl|done]. f_equal.
  unfold iteration, try_body, generation. rewrite Hrender.
  destruct (render_prompt w2 t1 doc) as [prompt|e]; [simpl|done].
  by rewrite Hgen.
Qed.

(** *** The claims on scenario D *)

Lemma C1_witness :
  DocumentLoopProcessor.run settings scenario_D [doc_1; doc_2]
  = Returns results_D
  ∧ ∃ template, read_template scenario_D = Returns template
      ∧ ∀ (i : nat) (r : gmap string value), results_D !! i = Some r →
          ∃ doc summary,
            [doc_1; doc_2] !! i = Some doc
            ∧ r = {[ "document" := VDocument doc; "summary" := VStr summary ]}
            ∧ dom r =@{gset string} {[ "document"; "summary" ]}
            ∧ r !! "failed" = None
            ∧ (generation_failed settings scenario_D template i doc = true →
               sentinel summary)
            ∧ (∀ resp reply rest,
                 generation settings scenario_D template i doc = Returns resp →
                 replies resp = Some (reply :: rest) → summary = reply).
Proof.
  assert (DocumentLoopProcessor.run settings scenario_D [doc_1; doc_2]
          = Returns results_D)
    as Hrun by (vm_compute; reflexivity).
  split; [exact Hrun|].
  exact (C1_result_records settings scenario_D [doc_1; doc_2] _ Hrun).
Defined.

Lemma C4_witness :
  read_template scenario_D = Returns "Summarize: "
  ∧ ∃ results,
      DocumentLoopProcessor.run settings scenario_D [doc_1; doc_2] = Returns results
      ∧ length results = length [doc_1; doc_2]
      ∧ ([doc_1; doc_2] = [] → results = [])
      ∧ ∀ (i : nat) doc, [doc_1; doc_2] !! i = Some doc →
          ∃ r, results !! i = Some r ∧ r !! "document" = Some (VDocument doc).
Proof.
  split; [reflexivity|].
  apply (C4_one_result_per_document settings scenario_D [doc_1; doc_2] "Summarize: ").
  reflexivity.
Defined.

(** The first call raises: its Document gets "Error generating summary", and
    the second Document still gets its reply. *)
Lemma C6_witness :
  DocumentLoopProcessor.run settings scenario_D [doc_1; doc_2] = Returns results_D
  ∧ [doc_1; doc_2] !! 0%nat = Some doc_1
  ∧ generation settings scenario_D "Summarize: " 0 doc_1 = Raises ClientError
  ∧ ∃ r, results_D !! 0%nat = Some r
      ∧ r !! "summary" = Some (VStr "Error generating summary")
      ∧ length results_D = length [doc_1; doc_2]
      ∧ ∃ r', results_D !! 1%nat = Some r' ∧ r' !! "document" = Some (VDocument doc_2).
Proof.
  assert (DocumentLoopProcessor.run settings scenario_D [doc_1; doc_2]
          = Returns results_D) as Hrun by (vm_compute; reflexivity).
  assert (generation settings scenario_D "Summarize: " 0 doc_1 = Raises ClientError)
    as Hgen by (vm_compute; reflexivity).
  destruct (C6_summary_by_outcome settings scenario_D [doc_1; doc_2] _ 0%nat doc_1
              Hrun eq_refl)
    as (template & r & Ht & Hr & _ & _ & _ & Hraise & Hlen & Hrest).
  assert (template = "Summarize: ") as -> by (vm_compute in Ht; congruence).
  split; [exact Hrun|]. split; [reflexivity|]. split; [exact Hgen|].
  exists r. split; [exact Hr|]. split; [exact (Hraise _ Hgen)|]. split; [exact Hlen|].
  exact (Hrest 1%nat doc_2 eq_refl).
Defined.

(** Scenario D and the run in which the first call succeeds differ at
    position 0 only: position 1 holds the same result in both. *)
Lemma C7_witness :
  DocumentLoopProcessor.run settings scenario_D [doc_1; doc_2]
  = Returns results_D
  ∧ DocumentLoopProcessor.run settings all_replies [doc_1; doc_2]
    = Returns results_all_replies
  ∧ ∀ j : nat, j ≠ 0%nat →
      results_D !! j
      = results_all_replies !! j.
Proof.
  assert (DocumentLoopProcessor.run settings scenario_D [doc_1; doc_2]
          = Returns results_D)
    as Hrun1 by (vm_compute; reflexivity).
  assert (DocumentLoopProcessor.run settings all_replies [doc_1; doc_2]
          = Returns results_all_replies)
    as Hrun2 by (vm_compute; reflexivity).
  split; [exact Hrun1|]. split; [exact Hrun2|].
  apply (C7_failure_is_isolated settings scenario_D all_replies [doc_1; doc_2] 0%nat
           _ _ eq_refl (λ _ _, eq_refl)); [|exact Hrun1|exact Hrun2].
  intros [|j] cfg prompt Hj; [congruence|reflexivity].
Defined.

End loop_claims.

(** * Further properties *)

(** ** The calendar conversion, continued *)

Section more_datetime_facts.
Local Open Scope Z_scope.

(** The epoch seconds of a valid date and time lie between those of
    0001-01-01T00:00:00 and 9999-12-31T23:59:59. *)
Lemma timegm_range (dt : datetime) :
  valid_datetime dt -> -62135596800 <= timegm dt <= 253402300799.
Proof.
  unfold valid_datetime, timegm, days_from_civil, MINYEAR, MAXYEAR.
  intros (Hy & Hm & Hd & Hh & Hmi & Hs).
  assert (day dt <= 31) as Hd31.
  { revert Hd. unfold days_in_month.
    repeat match goal with |- context [Z.eqb ?a ?b] => destruct (Z.eqb_spec a b) end;
      cbn [orb]; try destruct (is_leap _); lia. }
  repeat match goal with
  | |- context [Z.leb ?a ?b] => destruct (Z.leb_spec a b)
  | |- context [Z.ltb ?a ?b] => destruct (Z.ltb_spec a b)
  end; Z.to_euclidean_division_equations; lia.
Qed.

End more_datetime_facts.

(** ** The units of work of the fetcher *)

Section unit_properties.
Import HackerNewsNewestFetcher.
Variable w : world.

(** [_extract_article_text] returns a text exactly when the page was
    fetched and is not empty and the extractor returned that text and it is
    not empty; in particular it never returns the empty string. *)
Theorem extract_article_text_iff (url : json) (text : string) :
  _extract_article_text w url = Some text
  ↔ ∃ html, get_text w url = Returns html ∧ html ≠ ""
      ∧ trafilatura_extract w html = Returns (Some text) ∧ text ≠ "".
Proof.
  split; [apply _extract_article_text_Some|].
  intros (html & Hget & Hhtml & Hex & Htext).
  unfold _extract_article_text, _fetch_url. rewrite Hget.
  destruct (String.eqb_spec html ""); [done|]. rewrite Hex.
  by destruct (String.eqb_spec text "").
Qed.

(** Line 138 raises exactly for a [time] that is [None], a string, a list
    or a dict, for an integer before year 1 or after year 9999, and for a
    float that [fromtimestamp] rejects.  A [bool] is converted as the
    integer 0 or 1, so it never raises: [False] is rendered as the epoch and
    [True] as one second after it. *)
Theorem time_isoformat_Raises_iff :
  (∀ time : json,
     (∃ e, time_isoformat w time = Raises e)
     ↔ match time with
       | JInt t => (t < -62135596800 ∨ 253402300799 < t)%Z
       | JBool _ => False
       | JFloat f => ∃ e, fromtimestamp_float w f = Raises e
       | JNull | JStr _ | JArr _ | JObj _ => True
       end)
  ∧ (∀ b : bool,
       time_isoformat w (JBool b) = time_isoformat w (JInt (if b then 1 else 0)))
  ∧ time_isoformat w (JBool false) = Returns "1970-01-01T00:00:00+00:00"
  ∧ time_isoformat w (JBool true) = Returns "1970-01-01T00:00:01+00:00".
Proof.
  split; [|split_and!; [by intros []|reflexivity|reflexivity]].
  intros time.
  assert (∀ t, (∃ e, isoformat <$> fromtimestamp_utc t = Raises e)
               ↔ (t < -62135596800 ∨ 253402300799 < t)%Z) as Hint.
  { intros t. split.
    - intros [e He].
      destruct (decide (-62135596800 <= t <= 253402300799)%Z) as [Hin|Hout]; [|lia].
      destruct (fromtimestamp_utc_in_range t Hin) as [dt Hdt].
      rewrite Hdt in He. done.
    - intros Hout. destruct (fromtimestamp_utc t) as [dt|e] eqn:Hdt; [|by exists e].
      exfalso. destruct (fromtimestamp_utc_Returns _ _ Hdt) as [Hgm Hvalid].
      pose proof (timegm_range dt Hvalid). lia. }
  destruct time as [|b|t|f|s|l|d].
  - split; [done|by eexists].
  - split; [|done]. intros [e He]. by destruct b.
  - apply Hint.
  - done.
  - split; [done|by eexists].
  - split; [done|by eexists].
  - split; [done|by eexists].
Qed.

End unit_properties.

Section unit_failures.
Import HackerNewsNewestFetcher.
Variable w : world.

(** A unit of work raises in two cases only: the details are true but no
    dict, so that [details.get] is an [AttributeError]; or they are those of
    a story with a non-empty url whose [time] cannot be converted.  An item
    that is filtered out for its type or url never raises, whatever its
    [time] holds, and a failure of the page fetch or of the extraction never
    raises either. *)
Theorem process_story_Raises_iff (story_id : json) (e : exn) :
  _process_story w story_id = Raises e
  ↔ (∃ v, get_item w story_id = Returns v ∧ truthy v = true
        ∧ (∀ d, v ≠ JObj d) ∧ e = OtherException)
    ∨ (∃ d url time, get_item w story_id = Returns (JObj d)
        ∧ d !! "type" = Some (JStr "story")
        ∧ d !! "url" = Some url ∧ truthy url = true
        ∧ d !! "time" = Some time ∧ time_isoformat w time = Raises e).
Proof.
  split.
  - unfold _process_story, _fetch_story_details.
    destruct (get_item w story_id) as [v|[]] eqn:Hitem; try done.
    destruct (truthy v) eqn:Hv; [simpl|done].
    destruct v as [| | | | | |d];
      try (intros [= <-]; left; eexists; split_and!; done).
    destruct (eq_str (dict_get d "type") "story") eqn:Htype; [simpl|done].
    apply eq_str_get_true in Htype.
    destruct (d !! "url") as [url|] eqn:Hurl; [|done].
    destruct (truthy url) eqn:Hu; [simpl|done].
    destruct (d !! "time") as [time|] eqn:Htime.
    + destruct (time_isoformat w time) as [iso|e'] eqn:Hiso; simpl.
      * destruct (_extract_article_text w url) as [text|]; [|done].
        by destruct (String.eqb text "").
      * intros [= <-]. right. exists d, url, time. by split_and!.
    + simpl. destruct (_extract_article_text w url) as [text|]; [|done].
      by destruct (String.eqb text "").
  - intros [(v & Hitem & Hv & Hnd & ->)|(d & url & time & Hitem & Htype & Hurl & Hu & Htime & Hiso)];
      unfold _process_story, _fetch_story_details; rewrite Hitem.
    + rewrite Hv. simpl. destruct v; try done. by destruct (Hnd d).
    + assert (truthy (JObj d) = true) as ->.
      { simpl. destruct (size d) eqn:Hsz; [|done].
        apply map_size_empty_iff in Hsz. subst d. by rewrite lookup_empty in Htype. }
      simpl. unfold dict_get at 1. rewrite Htype. simpl. rewrite Hurl, Hu. simpl.
      rewrite Htime, Hiso. done.
Qed.

End unit_failures.

(** ** Runs of the fetcher *)

Section run_properties.
Import HackerNewsNewestFetcher.
Variable w : world.

Lemma document_of_id (story_id : json) (doc : Document) :
  document_of w story_id = Some doc → meta doc !! "id" = Some story_id.
Proof.
  unfold document_of. destruct (_process_story w story_id) as [[d|]|] eqn:Hp; try done.
  intros [= ->]. apply _process_story_Some in Hp
    as (d & url & time_iso & _ & _ & _ & _ & _ & _ & ->). done.
Qed.

Lemma run_unfold last_k completion top ids :
  get_newstories w = Returns top → sliced_items top last_k = Returns ids →
  run w last_k completion
  = {| launched := ids;
       ended := match asyncio.gather (_process_story w <$> ids) completion with
                | None => None
                | Some (Raises e) => Some (Raises e)
                | Some (Returns processed) =>
                    Some (Returns {| documents := omap id processed |})
                end |}.
Proof. intros Htop Hs. unfold run, _run_async. by rewrite Htop, Hs. Qed.

(** Failure of one unit is not isolated.  Once the index is fetched and can
    be sliced, and under a complete completion order, a run raises exactly
    when one of its tasks raises, with the exception of such a task, and
    then returns no Document at all; when no task raises it returns the
    Documents of the launched IDs. *)
Theorem run_raises_iff_a_task_raises (last_k : Z) (completion : list nat)
    (top : json) (ids : list json) :
  get_newstories w = Returns top →
  sliced_items top last_k = Returns ids →
  completion ≡ₚ seq 0 (length ids) →
  (∀ e, ended (run w last_k completion) = Some (Raises e) →
     ∃ story_id, story_id ∈ ids ∧ _process_story w story_id = Raises e)
  ∧ ((∃ story_id e, story_id ∈ ids ∧ _process_story w story_id = Raises e) →
     ∃ e, ended (run w last_k completion) = Some (Raises e))
  ∧ ((∀ story_id, story_id ∈ ids → ∃ r, _process_story w story_id = Returns r) →
     ended (run w last_k completion)
     = Some (Returns {| documents := omap (document_of w) ids |})).
Proof.
  intros Htop Hs Hperm. rewrite (run_unfold _ _ _ _ Htop Hs). simpl.
  assert (asyncio.complete (_process_story w <$> ids) completion) as Hc.
  { unfold asyncio.complete. by rewrite length_fmap. }
  destruct (gather_complete _ _ Hc) as [r Hg]. rewrite Hg. split_and!.
  - intros e He. destruct r as [processed|e']; [done|]. injection He as ->.
    apply gather_Raises in Hg. apply list_elem_of_fmap in Hg as (story_id & Hr & Hin).
    by exists story_id.
  - intros (story_id & e & Hin & Hr). destruct r as [processed|e']; [|by exists e'].
    apply gather_Returns in Hg.
    assert (Raises e ∈ _process_story w <$> ids) as Hraise.
    { apply list_elem_of_fmap. by exists story_id. }
    rewrite Hg in Hraise. apply list_elem_of_fmap in Hraise as (? & ? & ?). done.
  - intros Hall.
    pose proof (run_returns w last_k completion top ids Htop Hs Hperm Hall) as Hrun.
    rewrite (run_unfold _ _ _ _ Htop Hs) in Hrun. simpl in Hrun. by rewrite Hg in Hrun.
Qed.

(** An index body that parses to anything but a list or a string ([null], a
    number, a boolean, an object) makes the run raise on the slice of line
    187, after the handlers of the fetch and before any task is created. *)
Theorem run_index_not_sliceable (last_k : Z) (completion : list nat) (top : json) :
  get_newstories w = Returns top →
  (∀ l, top ≠ JArr l) → (∀ s, top ≠ JStr s) →
  run w last_k completion = {| launched := []; ended := Some (Raises OtherException) |}.
Proof.
  intros Htop Hl Hs. unfold run, _run_async. rewrite Htop.
  destruct top as [| | | |s|l|]; try done; [by destruct (Hs s)|by destruct (Hl l)].
Qed.

(** On an index list of [n] IDs the launched IDs are a prefix of the list: its
    first [last_k] entries, all of them when [last_k] exceeds [n], none for
    [last_k = 0], and, for a negative [last_k], all but the last [-last_k]. *)
Theorem launched_count (last_k : Z) (completion : list nat) (ids : list json) :
  get_newstories w = Returns (JArr ids) →
  launched (run w last_k completion) `prefix_of` ids
  ∧ Z.of_nat (length (launched (run w last_k completion)))
    = (if Z.ltb last_k 0
       then Z.max 0 (Z.of_nat (length ids) + last_k)
       else Z.min last_k (Z.of_nat (length ids)))%Z.
Proof.
  intros Htop. rewrite (run_unfold last_k completion _ (slice_to ids last_k) Htop eq_refl).
  simpl. unfold slice_to, slice_stop. split; [apply prefix_take|].
  rewrite length_take. destruct (Z.ltb_spec last_k 0); lia.
Qed.

(** Asking for more stories only appends.  On an index list, if the run for
    [last_k'] returns, so does the run for any smaller non-negative [last_k],
    and its Documents are a prefix of those of the larger run. *)
Theorem run_prefix_of_larger_run (last_k last_k' : Z) (completion completion' : list nat)
    (ids : list json) (out' : output) :
  get_newstories w = Returns (JArr ids) →
  (0 <= last_k <= last_k')%Z →
  ended (run w last_k' completion') = Some (Returns out') →
  completion ≡ₚ seq 0 (length (launched (run w last_k completion))) →
  ∃ out, ended (run w last_k completion) = Some (Returns out)
    ∧ documents out `prefix_of` documents out'.
Proof.
  intros Htop Hk Hrun' Hperm.
  assert (∀ k, (0 <= k)%Z → slice_to ids k = take (Z.to_nat k) ids) as Hslice.
  { intros k Hk0. unfold slice_to, slice_stop. by destruct (Z.ltb_spec k 0); [lia|]. }
  pose proof (run_Returns _ _ _ _ Hrun') as Hdocs'.
  rewrite (run_unfold last_k' completion' _ (slice_to ids last_k') Htop eq_refl) in Hrun', Hdocs'.
  rewrite (run_unfold last_k completion _ (slice_to ids last_k) Htop eq_refl) in Hperm.
  simpl in Hrun', Hdocs', Hperm.
  rewrite (Hslice last_k') in Hrun', Hdocs' by lia.
  rewrite (Hslice last_k) in Hperm by lia.
  destruct (asyncio.gather _ completion') as [[processed|e]|] eqn:Hg; try done.
  apply gather_Returns in Hg.
  assert (take (Z.to_nat last_k') ids
          = (take (Z.to_nat last_k) ids
             ++ drop (Z.to_nat last_k) (take (Z.to_nat last_k') ids))%list)
    as Hsplit.
  { rewrite <- (take_drop (Z.to_nat last_k) (take (Z.to_nat last_k') ids)) at 1.
    rewrite take_take. f_equal. f_equal. lia. }
  exists {| documents := omap (document_of w) (take (Z.to_nat last_k) ids) |}. split.
  - apply (run_returns w last_k completion (JArr ids)); [done| |done|].
    + simpl. by rewrite Hslice by lia.
    + intros story_id Hin.
      assert (story_id ∈ take (Z.to_nat last_k') ids) as Hin'.
      { rewrite Hsplit. apply elem_of_app. by left. }
      assert (_process_story w story_id ∈ _process_story w <$> take (Z.to_nat last_k') ids)
        as Hp by (apply list_elem_of_fmap; by exists story_id).
      rewrite Hg in Hp. apply list_elem_of_fmap in Hp as (r & -> & _). by exists r.
  - simpl. rewrite Hdocs', Hsplit, omap_app. by eexists.
Qed.

(** The ids recorded in the output Documents are the launched IDs that
    survive, in their order: every Document carries its id, and the list of
    these ids is a sublist of the launched IDs. *)
Theorem output_ids_sublist_of_launched (last_k : Z) (completion : list nat) (out : output) :
  ended (run w last_k completion) = Some (Returns out) →
  (∀ doc, doc ∈ documents out → is_Some (meta doc !! "id"))
  ∧ omap (λ doc, meta doc !! "id") (documents out)
    `sublist_of` launched (run w last_k completion)
  ∧ length (omap (λ doc, meta doc !! "id") (documents out)) = length (documents out).
Proof.
  intros Hrun. rewrite (run_Returns _ _ _ _ Hrun).
  generalize (launched (run w last_k completion)). intros l.
  induction l as [|story_id l (IH1 & IH2 & IH3)].
  - split_and!; [by intros doc Hin%elem_of_nil|done|done].
  - change (omap (document_of w) (story_id :: l))
      with (match document_of w story_id with
            | Some doc => doc :: omap (document_of w) l
            | None => omap (document_of w) l
            end).
    destruct (document_of w story_id) as [doc|] eqn:Hdoc.
    + pose proof (document_of_id _ _ Hdoc) as Hid.
      rewrite (omap_cons_Some _ doc _ story_id Hid). split_and!.
      * intros d [->|Hin]%elem_of_cons; [by rewrite Hid|by apply IH1].
      * by apply sublist_skip.
      * simpl. by rewrite IH3.
    + split_and!; [done|by apply sublist_cons|done].
Qed.

End run_properties.

(** ** The summarization loop, continued *)

Section loop_properties.
Import HackerNewsNewestFetcher DocumentLoopProcessor.
Variable self : config.
Variable w : DocumentLoopProcessor.world.

(** [run] raises exactly when the template cannot be read, with that
    exception, whatever the Documents are, the empty list included; no
    failure of rendering or of generation ever makes it raise. *)
Theorem run_Raises_iff_template (docs : list Document) (e : exn) :
  DocumentLoopProcessor.run self w docs = Raises e ↔ read_template w = Raises e.
Proof.
  unfold DocumentLoopProcessor.run. destruct (read_template w) as [template|e']; simpl.
  - split; intros; done.
  - split; intros [= ->]; done.
Qed.

Lemma loop_app (template : string) (docs1 docs2 : list Document) (i : nat)
    (results : list (gmap string value)) :
  loop self w template i (docs1 ++ docs2) results
  = loop self w template (i + length docs1) docs2 (loop self w template i docs1 results).
Proof.
  revert i results. induction docs1 as [|doc docs1 IH]; intros i results; simpl.
  - by rewrite Nat.add_0_r.
  - replace (i + S (length docs1))%nat with (S i + length docs1)%nat by lia. apply IH.
Qed.

(** Documents added at the end of a batch leave the earlier results as they
    are: when [run] returns for [docs1 ++ docs2], [run] over [docs1] alone,
    with the same answers of the service, returns the first results of the
    longer run, one per Document of [docs1], and the longer run has one
    more result per Document of [docs2]. *)
Theorem run_prefix_of_longer_batch (docs1 docs2 : list Document)
    (results : list (gmap string value)) :
  DocumentLoopProcessor.run self w (docs1 ++ docs2) = Returns results →
  DocumentLoopProcessor.run self w docs1 = Returns (take (length docs1) results)
  ∧ length results = (length docs1 + length docs2)%nat.
Proof.
  unfold DocumentLoopProcessor.run.
  destruct (read_template w) as [template|e]; [simpl|done].
  intros [= <-]. rewrite loop_app, (loop_imap self w template docs2).
  assert (length (loop self w template 0 docs1 []) = length docs1) as Hlen
    by (by rewrite loop_imap, app_nil_l, length_imap).
  split.
  - f_equal. by rewrite <- Hlen, take_app_length.
  - by rewrite length_app, Hlen, length_imap.
Qed.

End loop_properties.

Section failure_not_visible.
Import HackerNewsNewestFetcher DocumentLoopProcessor.

(** A result does not tell a failure from a success: when the service
    answers with a first reply that is the text of the sentinel, the result
    is the one of a call that raised. *)
Theorem sentinel_reply_looks_like_failure (self : config)
    (w1 w2 : DocumentLoopProcessor.world) (template : string) (i : nat) (doc : Document)
    (e : exn) (r : response) (rest : list string) :
  generation self w1 template i doc = Raises e →
  generation self w2 template i doc = Returns r →
  replies r = Some ("Error generating summary" :: rest) →
  generation_failed self w1 template i doc = true
  ∧ generation_failed self w2 template i doc = false
  ∧ iteration self w1 template i doc = iteration self w2 template i doc.
Proof.
  intros H1 H2 Hr. unfold generation_failed, iteration, try_body.
  rewrite H1, H2. simpl. unfold summary_of. by rewrite Hr.
Qed.

End failure_not_visible.

(** ** The command *)

Section command_facts.
Import HackerNewsNewestFetcher DocumentLoopProcessor Main.

(** What the loop of lines 90-112 returns. *)
Lemma collect_Returns (items : list (gmap string value)) : ∀ summaries out,
  collect items summaries = Returns out
  ↔ ∃ l, out = (summaries ++ l)%list
      ∧ Forall2 (λ item s, summary_of_item item = Returns s) items l.
Proof.
  induction items as [|item items IH]; intros summaries out; simpl.
  - split.
    + intros [= <-]. exists []. by rewrite app_nil_r.
    + intros (l & -> & Hl). apply Forall2_nil_inv_l in Hl as ->. by rewrite app_nil_r.
  - destruct (summary_of_item item) as [s|e] eqn:Hs; simpl.
    + rewrite IH. split.
      * intros (l & -> & Hl). exists (s :: l). rewrite <- app_assoc. split; [done|].
        by apply Forall2_cons.
      * intros (l & -> & Hl). apply Forall2_cons_inv_l in Hl as (s' & l' & Hs' & Hl' & ->).
        exists l'. rewrite <- app_assoc. split; [|done]. simpl. congruence.
    + split; [done|]. intros (l & -> & Hl).
      apply Forall2_cons_inv_l in Hl as (s' & l' & Hs' & _ & _). congruence.
Qed.

(** The summary of a result of the processor. *)
Lemma summary_of_iteration (self : config) (pw : DocumentLoopProcessor.world)
    (template : string) (i : nat) (doc : Document) :
  ∃ text,
    iteration self pw template i doc
    = {[ "document" := VDocument doc; "summary" := VStr text ]}
    ∧ summary_of_item (iteration self pw template i doc)
      = Returns {| title := dict_get_default (meta doc) "title" (JStr "N/A");
                   url := dict_get_default (meta doc) "url" (JStr "N/A");
                   score := dict_get_default (meta doc) "score" (JInt 0);
                   comments := dict_get_default (meta doc) "descendants" (JInt 0);
                   summary := VStr text;
                   time_iso := dict_get_default (meta doc) "time_iso" (JStr "N/A");
                   by_ := dict_get_default (meta doc) "by" (JStr "N/A") |}.
Proof.
  rewrite iteration_summary. eexists. split; [done|]. done.
Qed.

(** The results of the processor can always be collected, one summary per
    Document. *)
Lemma collect_results (self : config) (pw : DocumentLoopProcessor.world)
    (docs : list Document) (results : list (gmap string value)) :
  DocumentLoopProcessor.run self pw docs = Returns results →
  ∃ summaries,
    summaries_of {[ "document_processor" := {[ "results" := results ]} ]}
    = Returns summaries
    ∧ Forall2 (λ item s, summary_of_item item = Returns s) results summaries
    ∧ length summaries = length docs.
Proof.
  intros Hrun. destruct (run_Returns_loop _ _ _ _ Hrun) as (template & _ & ->).
  unfold summaries_of. rewrite lookup_singleton_eq. rewrite lookup_singleton_eq.
  assert (∀ f : nat → Document → gmap string value,
            (∀ i doc, ∃ s, summary_of_item (f i doc) = Returns s) →
            ∃ l, Forall2 (λ item s, summary_of_item item = Returns s) (imap f docs) l)
    as Hall.
  { clear Hrun. induction docs as [|doc docs' IH]; intros f Hone.
    - by exists [].
    - destruct (Hone 0%nat doc) as [s Hs].
      destruct (IH (f ∘ S)) as [l Hl]; [intros i d; apply Hone|].
      exists (s :: l). rewrite imap_cons. by apply Forall2_cons. }
  destruct (Hall (iteration self pw template)) as [l Hl].
  { intros i doc. destruct (summary_of_iteration self pw template i doc) as (t & _ & Hs).
    eauto. }
  exists l. split_and!.
  - apply collect_Returns. by exists l.
  - done.
  - apply Forall2_length in Hl. by rewrite length_imap in Hl.
Qed.

(** What running the pipeline returns is the results of the processor on
    the Documents of the fetcher. *)
Lemma pipeline_Returns (p : Pipeline.Pipeline) (pw : Pipeline.world) (last_k : Z) result :
  Pipeline.run p pw last_k = Some (Returns result) →
  ∃ fetched results,
    ended (HackerNewsNewestFetcher.run (Pipeline.fetcher_world pw) last_k
             (Pipeline.completion pw)) = Some (Returns fetched)
    ∧ DocumentLoopProcessor.run (Pipeline.document_processor p)
        (Pipeline.processor_world pw) (documents fetched) = Returns results
    ∧ result = {[ "document_processor" := {[ "results" := results ]} ]}.
Proof.
  unfold Pipeline.run.
  destruct (ended _) as [[fetched|e]|]; try done.
  destruct (DocumentLoopProcessor.run _ _ _) as [results|e] eqn:Hrun; try done.
  intros [= <-]. by exists fetched, results.
Qed.

End command_facts.

Section main_facts.
Import HackerNewsNewestFetcher DocumentLoopProcessor Main.
Variable w : Main.world.

Lemma key_cases :
  (OPENAI_API_KEY w = None ∨ OPENAI_API_KEY w = Some "")
  ∨ ∃ key, OPENAI_API_KEY w = Some key ∧ key ≠ "".
Proof.
  destruct (OPENAI_API_KEY w) as [[|a key]|]; [by left; right| |by left; left].
  right. by eexists.
Qed.

(** [main] once the key is there. *)
Lemma main_with_key last_k model temperature verbose json key :
  OPENAI_API_KEY w = Some key → key ≠ "" →
  main w last_k model temperature verbose json
  = match Pipeline.run (Pipeline.create_hn_summarizer_pipeline key model temperature verbose)
            (pipeline_world w) last_k with
    | None => None
    | Some (Raises e) =>
        Some ((started w last_k model temperature verbose ++ fetching verbose
               ++ [ pipeline_failed w e ])%list, Aborted)
    | Some (Returns result) =>
        match summaries_of result with
        | Raises e =>
            Some ((started w last_k model temperature verbose ++ fetching verbose)%list,
                  Uncaught e)
        | Returns summaries =>
            if json
            then Some ((started w last_k model temperature verbose ++ fetching verbose
                        ++ timed w verbose)%list, Uncaught OtherException)
            else Some ((started w last_k model temperature verbose ++ fetching verbose
                        ++ timed w verbose ++ pretty w summaries)%list, Completed)
        end
    end.
Proof. intros Hkey Hne. unfold main. rewrite Hkey. by destruct key. Qed.

Lemma main_without_key last_k model temperature verbose json :
  OPENAI_API_KEY w = None ∨ OPENAI_API_KEY w = Some "" →
  main w last_k model temperature verbose json
  = Some ((started w last_k model temperature verbose ++ [ key_not_set ])%list, Aborted).
Proof. intros [Hkey|Hkey]; unfold main; by rewrite Hkey. Qed.

(** The summaries that [main] collects from what the pipeline returns. *)
Lemma pipeline_summaries (p : Pipeline.Pipeline) (last_k : Z) result :
  Pipeline.run p (pipeline_world w) last_k = Some (Returns result) →
  ∃ fetched summaries,
    ended (HackerNewsNewestFetcher.run (Pipeline.fetcher_world (pipeline_world w)) last_k
             (Pipeline.completion (pipeline_world w))) = Some (Returns fetched)
    ∧ summaries_of result = Returns summaries
    ∧ length summaries = length (documents fetched).
Proof.
  intros (fetched & results & Hf & Hrun & ->)%pipeline_Returns.
  destruct (collect_results _ _ _ _ Hrun) as (summaries & Hs & _ & Hlen).
  by exists fetched, summaries.
Qed.

(** How [main] ends.  It aborts exactly when the key is missing or empty or
    the pipeline raises; otherwise the pipeline has returned, and [main]
    completes when [--json] is not set and ends with an uncaught exception,
    the [AttributeError] of line 121, when it is. *)
Theorem main_exit (last_k : Z) (model : string) (temperature : float)
    (verbose json : bool) (out : list echo) (status : exit) :
  main w last_k model temperature verbose json = Some (out, status) →
  (status = Aborted
   ↔ OPENAI_API_KEY w = None ∨ OPENAI_API_KEY w = Some ""
     ∨ ∃ key e, OPENAI_API_KEY w = Some key
         ∧ Pipeline.run (Pipeline.create_hn_summarizer_pipeline key model temperature verbose)
             (pipeline_world w) last_k = Some (Raises e))
  ∧ (status = Completed
     ↔ json = false
       ∧ ∃ key result, OPENAI_API_KEY w = Some key ∧ key ≠ ""
           ∧ Pipeline.run (Pipeline.create_hn_summarizer_pipeline key model temperature verbose)
               (pipeline_world w) last_k = Some (Returns result))
  ∧ (∀ e, status = Uncaught e
     ↔ e = OtherException ∧ json = true
       ∧ ∃ key result, OPENAI_API_KEY w = Some key ∧ key ≠ ""
           ∧ Pipeline.run (Pipeline.create_hn_summarizer_pipeline key model temperature verbose)
               (pipeline_world w) last_k = Some (Returns result))
  ∧ status ≠ UsageError.
Proof.
  intros Hmain. destruct key_cases as [Hno|(key & Hkey & Hne)].
  - rewrite (main_without_key _ _ _ _ _ Hno) in Hmain. injection Hmain as <- <-.
    split_and!; try done.
    + split; [tauto|done].
    + split; [done|]. intros (_ & k & r & Hk & Hkne & _). destruct Hno; congruence.
    + intros e. split; [done|]. intros (_ & _ & k & r & Hk & Hkne & _).
      destruct Hno; congruence.
  - rewrite (main_with_key _ _ _ _ _ key Hkey Hne) in Hmain.
    destruct (Pipeline.run _ _ _) as [[result|e]|] eqn:Hrun; [|simpl in Hmain|done].
    + destruct (pipeline_summaries _ _ _ Hrun) as (fetched & summaries & _ & Hs & _).
      rewrite Hs in Hmain. destruct json; injection Hmain as <- <-.
      * split_and!; try done.
        -- split; [done|]. intros [H|[H|(k & e & Hk & Hr)]]; congruence.
        -- split; [done|]. by intros [? _].
        -- intros e. split.
           ++ intros [= <-]. split_and!; try done. by exists key, result.
           ++ by intros [-> _].
      * split_and!; try done.
        -- split; [done|]. intros [H|[H|(k & e & Hk & Hr)]]; congruence.
        -- split; [|done]. intros _. split; [done|]. by exists key, result.
        -- intros e. split; [done|]. by intros (_ & ? & _).
    + injection Hmain as <- <-. split_and!; try done.
      * split; [|done]. intros _. right. right. by exists key, e.
      * split; [done|]. intros (_ & k & r & Hk & _ & Hr). congruence.
      * intros e'. split; [done|]. intros (_ & _ & k & r & Hk & _ & Hr). congruence.
Qed.

(** With [--json], and without [--verbose], [main] prints nothing at all
    once the pipeline has returned: it ends with the uncaught exception of
    line 121, whatever the summaries are. *)
Theorem main_json_prints_nothing (last_k : Z) (model : string) (temperature : float)
    (key : string) result :
  OPENAI_API_KEY w = Some key → key ≠ "" →
  Pipeline.run (Pipeline.create_hn_summarizer_pipeline key model temperature false)
    (pipeline_world w) last_k = Some (Returns result) →
  main w last_k model temperature false true = Some ([], Uncaught OtherException).
Proof.
  intros Hkey Hne Hrun. rewrite (main_with_key _ _ _ _ _ key Hkey Hne), Hrun.
  destruct (pipeline_summaries _ _ _ Hrun) as (fetched & summaries & _ & -> & _). done.
Qed.

End main_facts.

Section main_end_to_end.
Import HackerNewsNewestFetcher DocumentLoopProcessor Main.
Variable w : Main.world.

(** A failed index fetch is silent.  Without [--verbose] and [--json], when
    the index fetch fails, or the fetcher returns no Document for any other
    reason, and the template is read, [main] prints the one message that no
    summaries were generated and completes normally. *)
Theorem main_without_documents (last_k : Z) (model : string) (temperature : float)
    (key template : string) :
  OPENAI_API_KEY w = Some key → key ≠ "" →
  read_template (Pipeline.processor_world (pipeline_world w)) = Returns template →
  (∃ e, get_newstories (Pipeline.fetcher_world (pipeline_world w)) = Raises e)
  ∨ (∃ fetched,
       ended (HackerNewsNewestFetcher.run (Pipeline.fetcher_world (pipeline_world w)) last_k
                (Pipeline.completion (pipeline_world w))) = Some (Returns fetched)
       ∧ documents fetched = []) →
  main w last_k model temperature false false = Some ([ no_summaries ], Completed).
Proof.
  intros Hkey Hne Htemplate Hnone.
  assert (∃ fetched,
       ended (HackerNewsNewestFetcher.run (Pipeline.fetcher_world (pipeline_world w)) last_k
                (Pipeline.completion (pipeline_world w))) = Some (Returns fetched)
       ∧ documents fetched = []) as (fetched & Hf & Hdocs).
  { destruct Hnone as [[e He]|H]; [|done]. exists {| documents := [] |}. split; [|done].
    unfold HackerNewsNewestFetcher.run, _run_async. rewrite He. by destruct e. }
  rewrite (main_with_key _ _ _ _ _ _ key Hkey Hne). unfold Pipeline.run.
  rewrite Hf, Hdocs. unfold DocumentLoopProcessor.run. rewrite Htemplate. simpl.
  unfold summaries_of. rewrite lookup_singleton_eq. rewrite lookup_singleton_eq. done.
Qed.

(** One item that makes its unit raise aborts the command: no summary is
    printed for any story, only the error message. *)
Theorem main_aborts_on_one_bad_item (last_k : Z) (model : string) (temperature : float)
    (key : string) (top : json) (ids : list json) (story_id : json) (e : exn)
    (json : bool) :
  OPENAI_API_KEY w = Some key → key ≠ "" →
  get_newstories (Pipeline.fetcher_world (pipeline_world w)) = Returns top →
  sliced_items top last_k = Returns ids →
  Pipeline.completion (pipeline_world w) ≡ₚ seq 0 (length ids) →
  story_id ∈ ids →
  _process_story (Pipeline.fetcher_world (pipeline_world w)) story_id = Raises e →
  ∃ e', main w last_k model temperature false json
        = Some ([ pipeline_failed w e' ], Aborted).
Proof.
  intros Hkey Hne Htop Hs Hperm Hin Hraise.
  rewrite (main_with_key _ _ _ _ _ _ key Hkey Hne). unfold Pipeline.run.
  unfold HackerNewsNewestFetcher.run, _run_async. rewrite Htop, Hs. simpl.
  assert (asyncio.complete (_process_story (Pipeline.fetcher_world (pipeline_world w)) <$> ids)
            (Pipeline.completion (pipeline_world w))) as Hc.
  { unfold asyncio.complete. by rewrite length_fmap. }
  destruct (gather_complete _ _ Hc) as [[processed|e'] Hg]; rewrite Hg.
  - apply gather_Returns in Hg.
    assert (Raises e ∈ _process_story (Pipeline.fetcher_world (pipeline_world w)) <$> ids)
      as Hr by (apply list_elem_of_fmap; by exists story_id).
    rewrite Hg in Hr. apply list_elem_of_fmap in Hr as (? & ? & ?). done.
  - by exists e'.
Qed.

End main_end_to_end.

Section summaries_facts.
Import HackerNewsNewestFetcher DocumentLoopProcessor Main.

(** The summaries of [main] follow the results of the processor: one per
    Document, in order, built from the metadata of that Document and from its
    summary text; collecting them never raises. *)
Theorem summaries_follow_results (self : config) (pw : DocumentLoopProcessor.world)
    (docs : list Document) (results : list (gmap string value)) :
  DocumentLoopProcessor.run self pw docs = Returns results →
  ∃ summaries,
    summaries_of {[ "document_processor" := {[ "results" := results ]} ]} = Returns summaries
    ∧ length summaries = length docs
    ∧ ∀ (i : nat) doc, docs !! i = Some doc →
        ∃ text,
          results !! i = Some {[ "document" := VDocument doc; "summary" := VStr text ]}
          ∧ summaries !! i
            = Some {| title := dict_get_default (meta doc) "title" (JStr "N/A");
                      url := dict_get_default (meta doc) "url" (JStr "N/A");
                      score := dict_get_default (meta doc) "score" (JInt 0);
                      comments := dict_get_default (meta doc) "descendants" (JInt 0);
                      summary := VStr text;
                      time_iso := dict_get_default (meta doc) "time_iso" (JStr "N/A");
                      by_ := dict_get_default (meta doc) "by" (JStr "N/A") |}.
Proof.
  intros Hrun. destruct (collect_results _ _ _ _ Hrun) as (summaries & Hs & Hall & Hlen).
  exists summaries. split_and!; try done.
  intros i doc Hdoc.
  destruct (run_Returns_loop _ _ _ _ Hrun) as (template & _ & ->).
  destruct (summary_of_iteration self pw template i doc) as (text & Hit & Hsum).
  exists text. rewrite list_lookup_imap, Hdoc. simpl. split; [by rewrite Hit|].
  assert (imap (iteration self pw template) docs !! i
          = Some (iteration self pw template i doc)) as Hi.
  { rewrite list_lookup_imap, Hdoc. done. }
  destruct (Forall2_lookup_l _ _ _ _ _ Hall Hi) as (s & Hsi & Hs'). rewrite Hsi.
  congruence.
Qed.

(** For a Document of the fetcher the defaults of lines 95-100 never apply,
    since its metadata holds every key: the summary shows the values of the
    fetched details, and a story without title is shown with the title
    [None], not ["N/A"]. *)
Theorem summary_of_fetched_document (w : Main.world) (fw : HackerNewsNewestFetcher.world)
    (story_id : json) (doc : Document) (text : string) :
  _process_story fw story_id = Returns (Some doc) →
  ∃ d u ti,
    get_item fw story_id = Returns (JObj d)
    ∧ d !! "url" = Some u
    ∧ time_iso_of fw d = Returns ti
    ∧ summary_of_item {[ "document" := VDocument doc; "summary" := VStr text ]}
      = Returns {| title := dict_get d "title";
                   url := u;
                   score := dict_get_default d "score" (JInt 0);
                   comments := dict_get_default d "descendants" (JInt 0);
                   summary := VStr text;
                   time_iso := ti;
                   by_ := dict_get d "by" |}
    ∧ (d !! "title" = None → str_json w (dict_get d "title") = "None").
Proof.
  intros Hp. apply _process_story_Some in Hp
    as (d & u & ti & Hitem & _ & Hurl & _ & Hti & _ & Hmeta).
  exists d, u, ti. split_and!; try done.
  - unfold summary_of_item. rewrite lookup_insert_eq. rewrite Hmeta. done.
  - intros Hnone. unfold dict_get. by rewrite Hnone.
Qed.

End summaries_facts.

Section pretty_facts.
Import HackerNewsNewestFetcher DocumentLoopProcessor Main.
Variable w : Main.world.

Lemma print_item_length (n i : nat) (item : summary_item) :
  length (print_item w n i item) = if (i <? n)%nat then 7%nat else 4%nat.
Proof. unfold print_item. rewrite length_app. by destruct (i <? n)%nat. Qed.

(** The lines of the stories before position [j] take [7 * j] lines. *)
Lemma print_items_split (n : nat) (items : list summary_item) : ∀ (i0 j : nat) s,
  (i0 + length items ≤ S n)%nat → items !! j = Some s →
  ∃ before after,
    print_items w n i0 items = (before ++ print_item w n (i0 + j) s ++ after)%list
    ∧ length before = (7 * j)%nat.
Proof.
  induction items as [|item items IH]; intros i0 j s Hlen Hj; [done|].
  change (print_items w n i0 (item :: items))
    with (print_item w n i0 item ++ print_items w n (S i0) items)%list.
  destruct j as [|j]; simpl in Hj.
  - injection Hj as ->. exists [], (print_items w n (S i0) items).
    rewrite Nat.add_0_r. done.
  - simpl in Hlen. destruct (IH (S i0) j s) as (before & after & Heq & Hlen'); [lia|done|].
    assert (i0 < n)%nat as Hlt by (apply lookup_lt_Some in Hj; lia).
    exists (print_item w n i0 item ++ before)%list, after. split.
    + rewrite <- app_assoc. f_equal.
      replace (i0 + S j)%nat with (S i0 + j)%nat by lia. exact Heq.
    + rewrite length_app, print_item_length, Hlen'.
      apply Nat.ltb_lt in Hlt. rewrite Hlt. lia.
Qed.

Lemma print_items_length (n : nat) (items : list summary_item) : ∀ i0 : nat,
  (i0 + length items = S n)%nat → items ≠ [] →
  length (print_items w n i0 items) = (7 * length items - 3)%nat.
Proof.
  induction items as [|item items IH]; intros i0 Hlen Hne; [done|].
  change (print_items w n i0 (item :: items))
    with (print_item w n i0 item ++ print_items w n (S i0) items)%list.
  rewrite length_app, print_item_length. destruct items as [|item' items]; simpl in Hlen.
  - assert (i0 = n) as -> by lia. by rewrite Nat.ltb_irrefl.
  - rewrite (IH (S i0)); [|simpl; lia|done].
    assert ((i0 <? n)%nat = true) as -> by (apply Nat.ltb_lt; lia).
    simpl length. lia.
Qed.

(** The layout of the output.  For [n ≥ 1] summaries [main] echoes [7n + 2]
    lines: three of heading, four per story, three of separation between two
    stories, two of footing.  The four lines of the story at position [i]
    start at line [3 + 7i], carry the number [i + 1] and show its title,
    score, comments, summary and url; the separator follows unless the story
    is the last, which the footing follows. *)
Theorem pretty_layout (summaries : list summary_item) (i : nat) (s : summary_item) :
  summaries !! i = Some s →
  length (pretty w summaries) = (7 * length summaries + 2)%nat
  ∧ take 3 (pretty w summaries) = heading
  ∧ take 4 (drop (3 + 7 * i) (pretty w summaries)) = story_lines w (S i) s
  ∧ ((S i < length summaries)%nat →
     take 3 (drop (7 + 7 * i) (pretty w summaries)) = separator)
  ∧ ((S i = length summaries)%nat →
     drop (7 + 7 * i) (pretty w summaries) = footing).
Proof.
  intros Hi. destruct summaries as [|s0 rest] eqn:Hsum; [done|]. rewrite <- Hsum in *.
  assert (summaries ≠ []) as Hne by (by rewrite Hsum).
  assert (pretty w summaries
          = (heading ++ print_items w (length summaries) 1 summaries ++ footing)%list)
    as -> by (by rewrite Hsum).
  pose proof (print_items_length (length summaries) summaries 1 ltac:(lia) Hne) as Hlen.
  assert (S i ≤ length summaries)%nat as Hle by (apply lookup_lt_Some in Hi; lia).
  destruct (print_items_split (length summaries) summaries 1 i s ltac:(lia) Hi)
    as (before & after & Heq & Hbefore).
  change (1 + i)%nat with (S i) in Heq.
  assert (∀ k tail, drop (k + 7 * i) (heading ++ (before ++ tail) ++ footing)
                    = drop (k - 3) (tail ++ footing) ∨ (k < 3)%nat) as Hdrop.
  { intros k tail. destruct (decide (k < 3)%nat); [by right|left].
    replace (k + 7 * i)%nat with (length heading + (length before + (k - 3)))%nat
      by (simpl; lia).
    rewrite drop_app_add, <- app_assoc. by rewrite drop_app_add. }
  split_and!.
  - rewrite !length_app, Hlen. simpl. lia.
  - done.
  - rewrite Heq. destruct (Hdrop 3%nat (print_item w (length summaries) (S i) s ++ after)%list)
      as [->|?]; [|lia].
    simpl. unfold print_item. rewrite <- !app_assoc. done.
  - intros Hlt. rewrite Heq.
    destruct (Hdrop 7%nat (print_item w (length summaries) (S i) s ++ after)%list)
      as [->|?]; [|lia].
    unfold print_item. apply Nat.ltb_lt in Hlt. rewrite Hlt. done.
  - intros Hlast. rewrite Heq.
    destruct (Hdrop 7%nat (print_item w (length summaries) (S i) s ++ after)%list)
      as [->|?]; [|lia].
    assert (after = []) as ->.
    { apply (f_equal length) in Heq.
      rewrite !length_app, print_item_length, Hlen, Hbefore in Heq.
      rewrite Hlast, Nat.ltb_irrefl in Heq. apply nil_length_inv. lia. }
    unfold print_item. rewrite Hlast, Nat.ltb_irrefl. done.
Qed.

End pretty_facts.

Section command_bounds.
Import HackerNewsNewestFetcher DocumentLoopProcessor Main.
Variable w : Main.world.




End command_bounds.

(** ** The further properties on concrete runs *)

Section further_witnesses.
Import HackerNewsNewestFetcher DocumentLoopProcessor Main Scenarios CommandScenarios.

Lemma perm_201 : [2; 0; 1]%nat ≡ₚ seq 0 3.
Proof. change ([2; 0; 1]%nat ≡ₚ [0; 1; 2]%nat). etrans; [apply perm_swap|apply perm_skip, perm_swap]. Defined.

(** The second of three entries has a [time] that is [null]: its task raises,
    and so does the run. *)
Lemma run_raises_iff_a_task_raises_witness :
  get_newstories bad_time = Returns (JArr [JInt 101; JInt 106; JInt 103])
  ∧ sliced_items (JArr [JInt 101; JInt 106; JInt 103]) 3
    = Returns [JInt 101; JInt 106; JInt 103]
  ∧ [2; 0; 1]%nat ≡ₚ seq 0 (length [JInt 101; JInt 106; JInt 103])
  ∧ _process_story bad_time (JInt 106) = Raises OtherException
  ∧ ∃ e, ended (HackerNewsNewestFetcher.run bad_time 3 [2; 0; 1]%nat) = Some (Raises e).
Proof.
  assert (_process_story bad_time (JInt 106) = Raises OtherException) as Hraise
    by (vm_compute; reflexivity).
  split; [reflexivity|]. split; [reflexivity|]. split; [exact perm_201|].
  split; [exact Hraise|].
  destruct (run_raises_iff_a_task_raises bad_time 3 [2; 0; 1]%nat
              (JArr [JInt 101; JInt 106; JInt 103]) [JInt 101; JInt 106; JInt 103]
              eq_refl eq_refl perm_201) as (_ & Hsome & _).
  apply Hsome. exists (JInt 106), OtherException. split; [|exact Hraise].
  apply list_elem_of_further, list_elem_of_here.
Defined.

Lemma run_index_not_sliceable_witness :
  get_newstories index_null = Returns JNull
  ∧ (∀ l, JNull ≠ JArr l) ∧ (∀ s, JNull ≠ JStr s)
  ∧ HackerNewsNewestFetcher.run index_null 5 []
    = {| launched := []; ended := Some (Raises OtherException) |}.
Proof.
  assert (∀ l, JNull ≠ JArr l) as Hl by (intros l; discriminate).
  assert (∀ s, JNull ≠ JStr s) as Hs by (intros s; discriminate).
  split; [reflexivity|]. split; [exact Hl|]. split; [exact Hs|].
  exact (run_index_not_sliceable index_null 5 [] JNull eq_refl Hl Hs).
Defined.

(** Five IDs in the feed and [last_k = -1]: four tasks are launched. *)
Lemma launched_count_witness :
  get_newstories both_pages
  = Returns (JArr [JInt 101; JInt 102; JInt 103; JInt 104; JInt 105])
  ∧ launched (HackerNewsNewestFetcher.run both_pages (-1) [])
    `prefix_of` [JInt 101; JInt 102; JInt 103; JInt 104; JInt 105]
  ∧ Z.of_nat (length (launched (HackerNewsNewestFetcher.run both_pages (-1) []))) = 4%Z.
Proof.
  split; [reflexivity|].
  exact (launched_count both_pages (-1) []
           [JInt 101; JInt 102; JInt 103; JInt 104; JInt 105] eq_refl).
Defined.

(** The run for one story returns the first Document of the run for three. *)
Lemma run_prefix_of_larger_run_witness :
  get_newstories both_pages
  = Returns (JArr [JInt 101; JInt 102; JInt 103; JInt 104; JInt 105])
  ∧ (0 <= 1 <= 3)%Z
  ∧ ended (HackerNewsNewestFetcher.run both_pages 3 [2; 0; 1]%nat)
    = Some (Returns {| documents := [doc_1; doc_2] |})
  ∧ ∃ out, ended (HackerNewsNewestFetcher.run both_pages 1 [0%nat]) = Some (Returns out)
      ∧ documents out `prefix_of` [doc_1; doc_2].
Proof.
  assert (ended (HackerNewsNewestFetcher.run both_pages 3 [2; 0; 1]%nat)
          = Some (Returns {| documents := [doc_1; doc_2] |})) as Hrun
    by (vm_compute; reflexivity).
  split; [reflexivity|]. split; [lia|]. split; [exact Hrun|].
  apply (run_prefix_of_larger_run both_pages 1 3 [0%nat] [2; 0; 1]%nat
           [JInt 101; JInt 102; JInt 103; JInt 104; JInt 105]
           {| documents := [doc_1; doc_2] |} eq_refl ltac:(lia) Hrun).
  reflexivity.
Defined.

Lemma output_ids_sublist_of_launched_witness :
  ended (HackerNewsNewestFetcher.run both_pages 3 [2; 0; 1]%nat)
  = Some (Returns {| documents := [doc_1; doc_2] |})
  ∧ (∀ doc, doc ∈ [doc_1; doc_2] → is_Some (meta doc !! "id"))
  ∧ omap (λ doc, meta doc !! "id") [doc_1; doc_2]
    `sublist_of` launched (HackerNewsNewestFetcher.run both_pages 3 [2; 0; 1]%nat)
  ∧ length (omap (λ doc, meta doc !! "id") [doc_1; doc_2]) = length [doc_1; doc_2].
Proof.
  assert (ended (HackerNewsNewestFetcher.run both_pages 3 [2; 0; 1]%nat)
          = Some (Returns {| documents := [doc_1; doc_2] |})) as Hrun
    by (vm_compute; reflexivity).
  split; [exact Hrun|].
  exact (output_ids_sublist_of_launched both_pages 3 [2; 0; 1]%nat _ Hrun).
Defined.

(** Scenario D: the result for the first Document alone is the first
    result of the run over both, although its call raised. *)
Lemma run_prefix_of_longer_batch_witness :
  DocumentLoopProcessor.run settings scenario_D ([doc_1] ++ [doc_2])%list = Returns results_D
  ∧ DocumentLoopProcessor.run settings scenario_D [doc_1] = Returns (take 1 results_D)
  ∧ length results_D = 2%nat.
Proof.
  assert (DocumentLoopProcessor.run settings scenario_D ([doc_1] ++ [doc_2])%list
          = Returns results_D) as Hrun
    by (vm_compute; reflexivity).
  split; [exact Hrun|].
  exact (run_prefix_of_longer_batch settings scenario_D [doc_1] [doc_2] results_D Hrun).
Defined.

(** A call that raises and a call answered by the text of the sentinel. *)
Lemma sentinel_reply_looks_like_failure_witness :
  generation settings scenario_D "Summarize: " 0 doc_1 = Raises ClientError
  ∧ generation settings sentinel_reply "Summarize: " 0 doc_1
    = Returns {| replies := Some ["Error generating summary"] |}
  ∧ generation_failed settings scenario_D "Summarize: " 0 doc_1 = true
  ∧ generation_failed settings sentinel_reply "Summarize: " 0 doc_1 = false
  ∧ iteration settings scenario_D "Summarize: " 0 doc_1
    = iteration settings sentinel_reply "Summarize: " 0 doc_1.
Proof.
  assert (generation settings scenario_D "Summarize: " 0 doc_1 = Raises ClientError)
    as H1 by (vm_compute; reflexivity).
  assert (generation settings sentinel_reply "Summarize: " 0 doc_1
          = Returns {| replies := Some ["Error generating summary"] |})
    as H2 by (vm_compute; reflexivity).
  split; [exact H1|]. split; [exact H2|].
  exact (sentinel_reply_looks_like_failure settings scenario_D sentinel_reply "Summarize: "
           0 doc_1 ClientError _ [] H1 H2 eq_refl).
Defined.

End further_witnesses.

Section command_witnesses.
Import HackerNewsNewestFetcher DocumentLoopProcessor Main Scenarios CommandScenarios.

(** Two stories, no flag: the command completes. *)
Lemma main_exit_witness :
  main two_stories 3 "gpt" 0.5%float false false
  = Some (pretty two_stories summaries_two_stories, Completed)
  ∧ false = false
  ∧ ∃ key result,
      OPENAI_API_KEY two_stories = Some key ∧ key ≠ ""
      ∧ Pipeline.run (Pipeline.create_hn_summarizer_pipeline key "gpt" 0.5%float false)
          (pipeline_world two_stories) 3 = Some (Returns result).
Proof.
  assert (main two_stories 3 "gpt" 0.5%float false false
          = Some (pretty two_stories summaries_two_stories, Completed)) as Hmain
    by (vm_compute; reflexivity).
  split; [exact Hmain|].
  destruct (main_exit two_stories 3 "gpt" 0.5%float false false _ _ Hmain)
    as (_ & [Hcompleted _] & _).
  exact (Hcompleted eq_refl).
Defined.

(** The same two stories with [--json]: nothing is printed. *)
Lemma main_json_prints_nothing_witness :
  OPENAI_API_KEY two_stories = Some "sk-test" ∧ "sk-test" ≠ ""
  ∧ Pipeline.run (Pipeline.create_hn_summarizer_pipeline "sk-test" "gpt" 0.5%float false)
      (pipeline_world two_stories) 3
    = Some (Returns {[ "document_processor" := {[ "results" := results_D ]} ]})
  ∧ main two_stories 3 "gpt" 0.5%float false true = Some ([], Uncaught OtherException).
Proof.
  assert ("sk-test" ≠ "") as Hne by discriminate.
  assert (Pipeline.run (Pipeline.create_hn_summarizer_pipeline "sk-test" "gpt" 0.5%float false)
            (pipeline_world two_stories) 3
          = Some (Returns {[ "document_processor" := {[ "results" := results_D ]} ]}))
    as Hrun by (vm_compute; reflexivity).
  split; [reflexivity|]. split; [exact Hne|]. split; [exact Hrun|].
  exact (main_json_prints_nothing two_stories 3 "gpt" 0.5%float "sk-test" _ eq_refl Hne Hrun).
Defined.

(** Scenario B through the command: the index fetch fails, and the command
    reports that no summaries were generated. *)
Lemma main_without_documents_witness :
  OPENAI_API_KEY index_down = Some "sk-test" ∧ "sk-test" ≠ ""
  ∧ read_template (Pipeline.processor_world (pipeline_world index_down))
    = Returns "Summarize: "
  ∧ get_newstories (Pipeline.fetcher_world (pipeline_world index_down)) = Raises ClientError
  ∧ main index_down 5 "gpt" 0.5%float false false = Some ([ no_summaries ], Completed).
Proof.
  assert ("sk-test" ≠ "") as Hne by discriminate.
  split; [reflexivity|]. split; [exact Hne|]. split; [reflexivity|]. split; [reflexivity|].
  apply (main_without_documents index_down 5 "gpt" 0.5%float "sk-test" "Summarize: "
           eq_refl Hne eq_refl).
  left. exists ClientError. reflexivity.
Defined.

(** One story with an unusable [time] among three: the command aborts. *)
Lemma main_aborts_on_one_bad_item_witness :
  OPENAI_API_KEY one_bad_time = Some "sk-test" ∧ "sk-test" ≠ ""
  ∧ get_newstories (Pipeline.fetcher_world (pipeline_world one_bad_time))
    = Returns (JArr [JInt 101; JInt 106; JInt 103])
  ∧ _process_story (Pipeline.fetcher_world (pipeline_world one_bad_time)) (JInt 106)
    = Raises OtherException
  ∧ ∃ e', main one_bad_time 3 "gpt" 0.5%float false false
          = Some ([ pipeline_failed one_bad_time e' ], Aborted).
Proof.
  assert ("sk-test" ≠ "") as Hne by discriminate.
  assert (_process_story (Pipeline.fetcher_world (pipeline_world one_bad_time)) (JInt 106)
          = Raises OtherException) as Hraise by (vm_compute; reflexivity).
  split; [reflexivity|]. split; [exact Hne|]. split; [reflexivity|]. split; [exact Hraise|].
  apply (main_aborts_on_one_bad_item one_bad_time 3 "gpt" 0.5%float "sk-test"
           (JArr [JInt 101; JInt 106; JInt 103]) [JInt 101; JInt 106; JInt 103]
           (JInt 106) OtherException false eq_refl Hne eq_refl eq_refl perm_201).
  - apply list_elem_of_further, list_elem_of_here.
  - exact Hraise.
Defined.

Lemma summaries_follow_results_witness :
  DocumentLoopProcessor.run settings scenario_D [doc_1; doc_2] = Returns results_D
  ∧ ∃ summaries,
      summaries_of {[ "document_processor" := {[ "results" := results_D ]} ]}
      = Returns summaries
      ∧ length summaries = length [doc_1; doc_2]
      ∧ ∀ (i : nat) doc, [doc_1; doc_2] !! i = Some doc →
          ∃ text,
            results_D !! i = Some {[ "document" := VDocument doc; "summary" := VStr text ]}
            ∧ summaries !! i
              = Some {| title := dict_get_default (meta doc) "title" (JStr "N/A");
                        url := dict_get_default (meta doc) "url" (JStr "N/A");
                        score := dict_get_default (meta doc) "score" (JInt 0);
                        comments := dict_get_default (meta doc) "descendants" (JInt 0);
                        summary := VStr text;
                        time_iso := dict_get_default (meta doc) "time_iso" (JStr "N/A");
                        by_ := dict_get_default (meta doc) "by" (JStr "N/A") |}.
Proof.
  assert (DocumentLoopProcessor.run settings scenario_D [doc_1; doc_2] = Returns results_D)
    as Hrun by (vm_compute; reflexivity).
  split; [exact Hrun|].
  exact (summaries_follow_results settings scenario_D [doc_1; doc_2] results_D Hrun).
Defined.

(** A story without title: its summary has the title [None]. *)
Lemma summary_of_fetched_document_witness :
  _process_story untitled (JInt 107) = Returns (Some doc_3)
  ∧ ∃ d u ti,
      get_item untitled (JInt 107) = Returns (JObj d)
      ∧ d !! "url" = Some u
      ∧ time_iso_of untitled d = Returns ti
      ∧ summary_of_item {[ "document" := VDocument doc_3; "summary" := VStr "S" ]}
        = Returns {| title := dict_get d "title";
                     url := u;
                     score := dict_get_default d "score" (JInt 0);
                     comments := dict_get_default d "descendants" (JInt 0);
                     summary := VStr "S";
                     time_iso := ti;
                     by_ := dict_get d "by" |}
      ∧ (d !! "title" = None → str_json two_stories (dict_get d "title") = "None").
Proof.
  assert (_process_story untitled (JInt 107) = Returns (Some doc_3)) as Hp
    by (vm_compute; reflexivity).
  split; [exact Hp|].
  exact (summary_of_fetched_document two_stories untitled (JInt 107) doc_3 "S" Hp).
Defined.

(** The sixteen lines printed for the two stories. *)
Lemma pretty_layout_witness :
  summaries_two_stories !! 1%nat = Some story_B
  ∧ length (pretty two_stories summaries_two_stories) = 16%nat
  ∧ take 3 (pretty two_stories summaries_two_stories) = heading
  ∧ take 4 (drop 10 (pretty two_stories summaries_two_stories))
    = story_lines two_stories 2 story_B
  ∧ drop 14 (pretty two_stories summaries_two_stories) = footing.
Proof.
  destruct (pretty_layout two_stories summaries_two_stories 1 story_B eq_refl)
    as (Hlen & Hhead & Hstory & _ & Hfoot).
  split; [reflexivity|]. split; [exact Hlen|]. split; [exact Hhead|].
  split; [exact Hstory|]. exact (Hfoot eq_refl).
Defined.


End command_witnesses.
